(** * The FLAC / OggFLAC common decoder layer of MPD

    A shallow embedding of [src/decoder/_flac_common.c] and the properties
    its description states about it.

    Conventions of the embedding:
    - C integers are [Z]; every operation the C code performs in a fixed
      width is followed by its reduction ([unsigned] is 32 bits,
      [FLAC__uint64] 64 bits, [long] 64 bits: the LP64 data model);
    - a function that mutates [struct flac_data] through its pointer takes
      the old value and returns the new one;
    - the collaborators whose code lives in other translation units (the
      decoder API, the PCM buffer, the sample converter, the tag and
      replay-gain parsers, libFLAC's metadata reader) are the methods of
      the class [Collaborators]; calls to them that are visible from
      outside ([g_warning], [decoder_data], [decoder_replay_gain]) are
      recorded in a trace;
    - a division by zero, which has no defined result in C, is the error
      of the [option] monad. *)

From Stdlib Require Import ZArith List String Ascii Bool Lia.
Import ListNotations.

Local Open Scope string_scope.
Local Open Scope Z_scope.

(** ** Fixed-width arithmetic *)

Module CInt.

Definition UINT_MOD : Z := 2 ^ 32.
Definition UINT64_MOD : Z := 2 ^ 64.
Definition LONG_MAX : Z := 2 ^ 63 - 1.
Definition LONG_MIN : Z := - 2 ^ 63.

(** Conversion to [unsigned] and to [FLAC__uint64]. *)
Definition to_uint (x : Z) : Z := x mod UINT_MOD.
Definition to_uint64 (x : Z) : Z := x mod UINT64_MOD.

Definition uint_mul (a b : Z) : Z := to_uint (a * b).
Definition uint64_add (a b : Z) : Z := to_uint64 (a + b).
Definition uint64_mul (a b : Z) : Z := to_uint64 (a * b).

(** Unsigned division; the divisor zero has no result. *)
Definition udiv (a b : Z) : option Z :=
  if b =? 0 then None else Some (a / b).

End CInt.

(** ** The C library functions the file calls *)

Module Libc.

Definition code (c : ascii) : Z := Z.of_nat (nat_of_ascii c).

(** [isdigit] and [isspace] in the "C" locale. *)
Definition isdigit (c : ascii) : bool := (48 <=? code c) && (code c <=? 57).

Definition isspace (c : ascii) : bool :=
  (code c =? 32) || ((9 <=? code c) && (code c <=? 13)).

Definition digit_value (c : ascii) : Z := code c - 48.

Definition digit_char (d : Z) : ascii := ascii_of_nat (Z.to_nat (48 + d)).

(** [strrchr s c]: the suffix of [s] that starts at the last occurrence
    of [c], or [None] (the null pointer) when [c] does not occur. *)
Fixpoint strrchr (s : string) (c : ascii) : option string :=
  match s with
  | EmptyString => None
  | String a rest =>
      match strrchr rest c with
      | Some p => Some p
      | None => if Ascii.eqb a c then Some s else None
      end
  end.

(** Pointer increment on a C string. *)
Definition next (p : string) : string :=
  match p with
  | EmptyString => EmptyString
  | String _ rest => rest
  end.

Fixpoint skip_spaces (s : string) : string :=
  match s with
  | String c rest => if isspace c then skip_spaces rest else s
  | EmptyString => s
  end.

(** The longest run of decimal digits at the head of [s], accumulated
    into [acc]; the exact value, before any range check. *)
Fixpoint read_digits (acc : Z) (s : string) : Z :=
  match s with
  | String c rest =>
      if isdigit c then read_digits (acc * 10 + digit_value c) rest else acc
  | EmptyString => acc
  end.

Definition clamp_long (v : Z) : Z :=
  if v >? CInt.LONG_MAX then CInt.LONG_MAX
  else if v <? CInt.LONG_MIN then CInt.LONG_MIN
  else v.

(** [strtol (s, NULL, 10)]: white space is skipped, one sign is
    accepted, the digits that follow are read; a subject without digits
    converts to 0 and a value out of range to [LONG_MAX] or [LONG_MIN]. *)
Definition strtol10 (s : string) : Z :=
  match skip_spaces s with
  | String "-" rest => clamp_long (- read_digits 0 rest)
  | String "+" rest => clamp_long (read_digits 0 rest)
  | subject => clamp_long (read_digits 0 subject)
  end.

(** The decimal digits of [n], most significant first, put in front of
    [acc]. The fuel bounds the number of digits. *)
Fixpoint utoa_aux (fuel : nat) (n : Z) (acc : string) : string :=
  let acc' := String (digit_char (n mod 10)) acc in
  match fuel with
  | O => acc'
  | S fuel' => if n / 10 =? 0 then acc' else utoa_aux fuel' (n / 10) acc'
  end.

(** The conversion [%u]. A number has no more decimal digits than
    binary ones. *)
Definition utoa (n : Z) : string :=
  utoa_aux (Z.to_nat (Z.log2 n)) n EmptyString.

Fixpoint zeros (k : nat) : string :=
  match k with
  | O => EmptyString
  | S k' => String "0" (zeros k')
  end.

(** The conversion [%03u]: zeros on the left up to a width of three. *)
Definition fmt_03u (n : Z) : string :=
  let s := utoa n in zeros (3 - String.length s) ++ s.

End Libc.

(** ** Data model *)

(** [enum sample_format], the constants [flac_sample_format] returns. *)
Inductive sample_format : Type :=
| SAMPLE_FORMAT_UNDEFINED
| SAMPLE_FORMAT_S8
| SAMPLE_FORMAT_S16
| SAMPLE_FORMAT_S24_P32
| SAMPLE_FORMAT_S32.

Record audio_format : Type := {
  af_sample_rate : Z;
  af_format : sample_format;
  af_channels : Z
}.

(** [FLAC__StreamMetadata_StreamInfo] of libFLAC. *)
Record FLAC__StreamMetadata_StreamInfo : Type := {
  min_blocksize : Z;
  max_blocksize : Z;
  min_framesize : Z;
  max_framesize : Z;
  sample_rate : Z;
  channels : Z;
  bits_per_sample : Z;
  total_samples : Z;
  md5sum : list Z
}.

(** The part of [FLAC__StreamMetadata_CueSheet] that is read here. *)
Record FLAC__StreamMetadata_CueSheet : Type := {
  media_catalog_number : string;
  lead_in : Z;
  is_cd : bool;
  num_tracks : Z
}.

Inductive decoder_command : Type :=
| DECODE_COMMAND_NONE
| DECODE_COMMAND_START
| DECODE_COMMAND_STOP
| DECODE_COMMAND_SEEK.

Inductive FLAC__StreamDecoderErrorStatus : Type :=
| FLAC__STREAM_DECODER_ERROR_STATUS_LOST_SYNC
| FLAC__STREAM_DECODER_ERROR_STATUS_BAD_HEADER
| FLAC__STREAM_DECODER_ERROR_STATUS_FRAME_CRC_MISMATCH
| FLAC__STREAM_DECODER_ERROR_STATUS_UNPARSEABLE_STREAM.

Inductive FLAC__StreamDecoderWriteStatus : Type :=
| FLAC__STREAM_DECODER_WRITE_STATUS_CONTINUE
| FLAC__STREAM_DECODER_WRITE_STATUS_ABORT.

(** The fields of [FLAC__FrameHeader] that [flac_common_write] reads; all
    three are [unsigned]. *)
Record FLAC__FrameHeader : Type := {
  fh_blocksize : Z;
  fh_sample_rate : Z;
  fh_channels : Z
}.

Record FLAC__Frame : Type := { header : FLAC__FrameHeader }.

(** ** The collaborators *)

(** Code of other translation units, reached through these calls only.
    Each method has the name of the C function it stands for; a function
    that writes through a pointer returns the new pointee. *)
Class Collaborators : Type := {
  (* pcm_buffer.h *)
  pcm_buffer : Type;
  pcm_buffer_init : pcm_buffer;
  pcm_buffer_get : pcm_buffer -> Z -> pcm_buffer;
  (* flac_pcm.h: channels, sample format, sample planes, the range of
     positions; the result is the content written to the buffer *)
  pcm : Type;
  flac_convert : Z -> sample_format -> list (list Z) -> Z -> Z -> pcm;
  (* decoder_api.h *)
  decoder : Type;
  replay_gain_info : Type;
  decoder_get_command : decoder -> decoder_command;
  decoder_data : decoder -> pcm -> Z -> Z -> decoder_command * decoder;
  decoder_replay_gain : decoder -> replay_gain_info -> decoder;
  (* tag.h, flac_metadata.h *)
  tag : Type;
  vorbis_comment : Type;
  flac_parse_replay_gain : vorbis_comment -> option replay_gain_info;
  flac_vorbis_comments_to_tag : tag -> vorbis_comment -> tag;
  (* audio_check.h: the text of the GError of a rejected format *)
  audio_check_message : Z -> sample_format -> Z -> string;
  (* libFLAC: the cue sheet stored in the file of that name, if any *)
  FLAC__metadata_get_cuesheet : string -> option FLAC__StreamMetadata_CueSheet
}.

(** ** The session and its functions *)

Section FlacCommon.

Context `{Collaborators}.

(** A metadata block: the tag [block->type] with the member of the
    union [block->data] that belongs to it. *)
Inductive FLAC__StreamMetadata : Type :=
| FLAC__METADATA_TYPE_STREAMINFO (stream_info : FLAC__StreamMetadata_StreamInfo)
| FLAC__METADATA_TYPE_PADDING
| FLAC__METADATA_TYPE_APPLICATION
| FLAC__METADATA_TYPE_SEEKTABLE
| FLAC__METADATA_TYPE_VORBIS_COMMENT (comment : vorbis_comment)
| FLAC__METADATA_TYPE_CUESHEET (cue_sheet : FLAC__StreamMetadata_CueSheet)
| FLAC__METADATA_TYPE_PICTURE
| FLAC__METADATA_TYPE_UNDEFINED.

(** [struct flac_data]. Its two pointer members, [decoder] and
    [input_stream], never change after [flac_data_init]; the decoder
    they lead to is the component [w_decoder] of the world below, and
    the input stream is only passed on. [first_frame], [next_frame] and
    [position] are [FLAC__uint64], [frame_size] is [unsigned]. *)
Record flac_data : Type := {
  buffer : pcm_buffer;
  data_sample_format : sample_format;
  frame_size : Z;
  have_stream_info : bool;
  stream_info : FLAC__StreamMetadata_StreamInfo;
  first_frame : Z;
  next_frame : Z;
  position : Z;
  data_tag : option tag
}.

(** What a call leaves behind outside the session. *)
Inductive event : Type :=
| Warning (message : string)
| DecoderData (chunk : pcm) (length : Z) (bit_rate : Z)
| ReplayGain (rgi : replay_gain_info).

Record world : Type := {
  w_data : flac_data;
  w_decoder : decoder;
  w_trace : list event
}.

Definition with_data (w : world) (d : flac_data) : world :=
  {| w_data := d; w_decoder := w_decoder w; w_trace := w_trace w |}.

Definition with_decoder (w : world) (dc : decoder) : world :=
  {| w_data := w_data w; w_decoder := dc; w_trace := w_trace w |}.

Definition emit (w : world) (e : event) : world :=
  {| w_data := w_data w; w_decoder := w_decoder w;
     w_trace := w_trace w ++ [e] |}.

Definition g_warning (w : world) (message : string) : world :=
  emit w (Warning message).

Definition set_sample_format (d : flac_data) (f : sample_format) : flac_data :=
  {| buffer := buffer d; data_sample_format := f;
     frame_size := frame_size d; have_stream_info := have_stream_info d;
     stream_info := stream_info d; first_frame := first_frame d;
     next_frame := next_frame d; position := position d;
     data_tag := data_tag d |}.

Definition set_frame_size (d : flac_data) (n : Z) : flac_data :=
  {| buffer := buffer d; data_sample_format := data_sample_format d;
     frame_size := n; have_stream_info := have_stream_info d;
     stream_info := stream_info d; first_frame := first_frame d;
     next_frame := next_frame d; position := position d;
     data_tag := data_tag d |}.

Definition set_stream_info (d : flac_data)
    (si : FLAC__StreamMetadata_StreamInfo) : flac_data :=
  {| buffer := buffer d; data_sample_format := data_sample_format d;
     frame_size := frame_size d; have_stream_info := true;
     stream_info := si; first_frame := first_frame d;
     next_frame := next_frame d; position := position d;
     data_tag := data_tag d |}.

Definition set_buffer (d : flac_data) (b : pcm_buffer) : flac_data :=
  {| buffer := b; data_sample_format := data_sample_format d;
     frame_size := frame_size d; have_stream_info := have_stream_info d;
     stream_info := stream_info d; first_frame := first_frame d;
     next_frame := next_frame d; position := position d;
     data_tag := data_tag d |}.

Definition set_next_frame (d : flac_data) (n : Z) : flac_data :=
  {| buffer := buffer d; data_sample_format := data_sample_format d;
     frame_size := frame_size d; have_stream_info := have_stream_info d;
     stream_info := stream_info d; first_frame := first_frame d;
     next_frame := n; position := position d;
     data_tag := data_tag d |}.

Definition set_tag (d : flac_data) (t : option tag) : flac_data :=
  {| buffer := buffer d; data_sample_format := data_sample_format d;
     frame_size := frame_size d; have_stream_info := have_stream_info d;
     stream_info := stream_info d; first_frame := first_frame d;
     next_frame := next_frame d; position := position d;
     data_tag := t |}.

(** [flac_data_init]: [sample_format], [frame_size] and [stream_info]
    are not assigned and keep what the memory held. *)
Definition flac_data_init (d : flac_data) : flac_data :=
  {| buffer := pcm_buffer_init;
     data_sample_format := data_sample_format d;
     frame_size := frame_size d;
     have_stream_info := false;
     stream_info := stream_info d;
     first_frame := 0;
     next_frame := 0;
     position := 0;
     data_tag := None |}.

Definition flac_sample_format (si : FLAC__StreamMetadata_StreamInfo)
    : sample_format :=
  match bits_per_sample si with
  | 8 => SAMPLE_FORMAT_S8
  | 16 => SAMPLE_FORMAT_S16
  | 24 => SAMPLE_FORMAT_S24_P32
  | 32 => SAMPLE_FORMAT_S32
  | _ => SAMPLE_FORMAT_UNDEFINED
  end.

(** Modelled from the spec: [audio_format_init_checked] of
    audio_check.c, which is not among the sources. It is the validating
    constructor of the audio format: it fails when the sample format is
    undefined or when the combination is rejected, for which the
    description names a zero sample rate and a zero channel count; a
    failure carries the validation message. *)
Definition audio_format_init_checked (rate : Z) (format : sample_format)
    (nchannels : Z) : string + audio_format :=
  match format with
  | SAMPLE_FORMAT_UNDEFINED => inl (audio_check_message rate format nchannels)
  | _ =>
      if (rate =? 0) || (nchannels =? 0)
      then inl (audio_check_message rate format nchannels)
      else inr {| af_sample_rate := rate; af_format := format;
                  af_channels := nchannels |}
  end.

(** Modelled from the spec: [audio_format_frame_size] of audio_format.h,
    which is not among the sources: the channel count times the width
    in bytes of a sample, a 24 bit sample being kept in a 32 bit word. *)
Definition audio_format_frame_size (af : audio_format) : Z :=
  af_channels af *
  match af_format af with
  | SAMPLE_FORMAT_UNDEFINED => 0
  | SAMPLE_FORMAT_S8 => 1
  | SAMPLE_FORMAT_S16 => 2
  | SAMPLE_FORMAT_S24_P32 => 4
  | SAMPLE_FORMAT_S32 => 4
  end.

(** [flac_data_get_audio_format]. The second argument is the content of
    [*audio_format] before the call, the second result its content
    after it. *)
Definition flac_data_get_audio_format (w : world) (af : audio_format)
    : bool * world * audio_format :=
  let data := w_data w in
  if negb (have_stream_info data) then
    (false, g_warning w "no STREAMINFO packet found", af)
  else
    let data := set_sample_format data (flac_sample_format (stream_info data)) in
    match audio_format_init_checked (sample_rate (stream_info data))
                                    (data_sample_format data)
                                    (channels (stream_info data)) with
    | inl message => (false, g_warning (with_data w data) message, af)
    | inr af' =>
        let data := set_frame_size data (audio_format_frame_size af') in
        (true, with_data w data, af')
    end.

Definition flac_metadata_common_cb (block : FLAC__StreamMetadata)
    (w : world) : world :=
  match block with
  | FLAC__METADATA_TYPE_STREAMINFO si =>
      with_data w (set_stream_info (w_data w) si)
  | FLAC__METADATA_TYPE_VORBIS_COMMENT vc =>
      let w :=
        match flac_parse_replay_gain vc with
        | Some rgi =>
            emit (with_decoder w (decoder_replay_gain (w_decoder w) rgi))
                 (ReplayGain rgi)
        | None => w
        end in
      match data_tag (w_data w) with
      | Some t =>
          with_data w (set_tag (w_data w)
                               (Some (flac_vorbis_comments_to_tag t vc)))
      | None => w
      end
  | _ => w
  end.

Definition nl : string := String (ascii_of_nat 10) EmptyString.

Definition flac_error_common_cb (plugin : string)
    (status : FLAC__StreamDecoderErrorStatus) (w : world) : world :=
  match decoder_get_command (w_decoder w) with
  | DECODE_COMMAND_STOP => w
  | _ =>
      match status with
      | FLAC__STREAM_DECODER_ERROR_STATUS_LOST_SYNC =>
          g_warning w (plugin ++ " lost sync" ++ nl)
      | FLAC__STREAM_DECODER_ERROR_STATUS_BAD_HEADER =>
          g_warning w ("bad " ++ plugin ++ " header" ++ nl)
      | FLAC__STREAM_DECODER_ERROR_STATUS_FRAME_CRC_MISMATCH =>
          g_warning w (plugin ++ " crc mismatch" ++ nl)
      | _ =>
          g_warning w ("unknown " ++ plugin ++ " error" ++ nl)
      end
  end.

(** The expression assigned to [bit_rate]: the product is computed in
    [FLAC__uint64], the divisor in [unsigned], and the quotient is
    converted to [unsigned]. *)
Definition bit_rate_of (nbytes : Z) (h : FLAC__FrameHeader) : option Z :=
  if nbytes >? 0 then
    option_map CInt.to_uint
      (CInt.udiv (CInt.uint64_mul (CInt.uint64_mul nbytes 8) (fh_sample_rate h))
                 (CInt.uint_mul 1000 (fh_blocksize h)))
  else Some 0.

Definition flac_common_write (w : world) (frame : FLAC__Frame)
    (buf : list (list Z)) (nbytes : Z)
    : option (FLAC__StreamDecoderWriteStatus * world) :=
  let data := w_data w in
  let h := header frame in
  let buffer_size := CInt.uint_mul (fh_blocksize h) (frame_size data) in
  let data := set_buffer data (pcm_buffer_get (buffer data) buffer_size) in
  let chunk := flac_convert (fh_channels h) (data_sample_format data) buf
                            0 (fh_blocksize h) in
  match bit_rate_of nbytes h with
  | None => None
  | Some bit_rate =>
      let '(cmd, dc) := decoder_data (w_decoder w) chunk buffer_size bit_rate in
      let data :=
        set_next_frame data (CInt.uint64_add (next_frame data) (fh_blocksize h)) in
      let w := emit (with_decoder (with_data w data) dc)
                    (DecoderData chunk buffer_size bit_rate) in
      match cmd with
      | DECODE_COMMAND_NONE
      | DECODE_COMMAND_START => Some (FLAC__STREAM_DECODER_WRITE_STATUS_CONTINUE, w)
      | DECODE_COMMAND_STOP => Some (FLAC__STREAM_DECODER_WRITE_STATUS_ABORT, w)
      | DECODE_COMMAND_SEEK => Some (FLAC__STREAM_DECODER_WRITE_STATUS_CONTINUE, w)
      end
  end.

(** One write callback of the decoding library. *)
Record delivery : Type := {
  dl_frame : FLAC__Frame;
  dl_buf : list (list Z);
  dl_nbytes : Z
}.

(** The write callbacks of a decode loop, one after the other, with the
    statuses they returned. The loop is run to its end whatever the
    statuses are: what the library does after an abort is not the matter
    here. *)
Fixpoint deliver_all (w : world) (ds : list delivery)
    : option (list FLAC__StreamDecoderWriteStatus * world) :=
  match ds with
  | [] => Some ([], w)
  | d :: rest =>
      match flac_common_write w (dl_frame d) (dl_buf d) (dl_nbytes d) with
      | None => None
      | Some (st, w') =>
          match deliver_all w' rest with
          | None => None
          | Some (sts, w'') => Some (st :: sts, w'')
          end
      end
  end.

Definition flac_cue_track (pathname : string) (tnum : Z) : option string :=
  match FLAC__metadata_get_cuesheet pathname with
  | None => None
  | Some cs =>
      if num_tracks cs <=? 1 then None
      else if (tnum >? 0) && (tnum <? num_tracks cs)
      then Some ("track_" ++ Libc.fmt_03u tnum ++ ".flac")
      else None
  end.

Definition flac_vtrack_tnum (fname : string) : Z :=
  match Libc.strrchr fname "_" with
  | None => 0
  | Some ptr => CInt.to_uint (Libc.strtol10 (Libc.next ptr))
  end.

End FlacCommon.

(** ** Notions the properties are stated with *)

(** A string made of decimal digits only. *)
Fixpoint all_digits (s : string) : bool :=
  match s with
  | EmptyString => true
  | String c rest => Libc.isdigit c && all_digits rest
  end.

(** The number a string of decimal digits denotes, continuing [acc]. *)
Fixpoint decimal (acc : Z) (s : string) : Z :=
  match s with
  | EmptyString => acc
  | String c rest => decimal (acc * 10 + Libc.digit_value c) rest
  end.

(** The first character of [s], if any, is no decimal digit. *)
Definition no_leading_digit (s : string) : Prop :=
  match s with
  | EmptyString => True
  | String c _ => Libc.isdigit c = false
  end.

(** A string of white space only. *)
Fixpoint all_spaces (s : string) : bool :=
  match s with
  | EmptyString => true
  | String c rest => Libc.isspace c && all_spaces rest
  end.

(** The first character of [s], if any, is neither white space nor a sign. *)
Definition plain_start (s : string) : Prop :=
  match s with
  | EmptyString => True
  | String c _ => Libc.isspace c = false /\ c <> "+"%char /\ c <> "-"%char
  end.

(** The sign a number may be written with, and its effect. *)
Definition is_sign (s : string) : Prop := s = EmptyString \/ s = "+" \/ s = "-".

Definition apply_sign (sign : string) (v : Z) : Z :=
  if String.eqb sign "-" then - v else v.

(** The character [c] does not occur in [s]. *)
Fixpoint absent (c : ascii) (s : string) : Prop :=
  match s with
  | EmptyString => True
  | String a rest => a <> c /\ absent c rest
  end.

Section Notions.

Context `{Collaborators}.

(** The metadata callback over the blocks of a stream, in order. *)
Definition process_blocks (w : world) (blocks : list FLAC__StreamMetadata)
    : world :=
  fold_left (fun w b => flac_metadata_common_cb b w) blocks w.

(** The last STREAMINFO block of a sequence, or [default]. *)
Fixpoint last_stream_info (default : FLAC__StreamMetadata_StreamInfo)
    (blocks : list FLAC__StreamMetadata) : FLAC__StreamMetadata_StreamInfo :=
  match blocks with
  | [] => default
  | FLAC__METADATA_TYPE_STREAMINFO si :: rest => last_stream_info si rest
  | _ :: rest => last_stream_info default rest
  end.

Definition is_stream_info (b : FLAC__StreamMetadata) : bool :=
  match b with
  | FLAC__METADATA_TYPE_STREAMINFO _ => true
  | _ => false
  end.

Definition blocksize_of (d : delivery) : Z := fh_blocksize (header (dl_frame d)).

Definition total_blocksize (ds : list delivery) : Z :=
  fold_right (fun d acc => blocksize_of d + acc) 0 ds.

(** The bit rate of the delivery can be computed: when there are bytes
    to account for, the divisor [1000 * blocksize], as the C code
    computes it, is not zero. *)
Definition computable (nbytes : Z) (h : FLAC__FrameHeader) : Prop :=
  nbytes > 0 -> CInt.uint_mul 1000 (fh_blocksize h) <> 0.

(** The arguments [decoder_data] is called with in [flac_common_write]. *)
Definition chunk_of (w : world) (frame : FLAC__Frame) (buf : list (list Z)) : pcm :=
  flac_convert (fh_channels (header frame)) (data_sample_format (w_data w))
               buf 0 (fh_blocksize (header frame)).

Definition buffer_size_of (w : world) (frame : FLAC__Frame) : Z :=
  CInt.uint_mul (fh_blocksize (header frame)) (frame_size (w_data w)).

End Notions.

(** ** A consumer to run the functions with *)

(** The decoder is the list of the commands it will answer with, the
    pending one first; the PCM buffer is its capacity; tags and comments
    are lists of lines; the content of the audio data is not kept. One
    file, "album.flac", has a cue sheet, of four tracks. *)
Module Fixture.

Definition pending (script : list decoder_command) : decoder_command :=
  match script with
  | [] => DECODE_COMMAND_NONE
  | c :: _ => c
  end.

Definition album_cue_sheet : FLAC__StreamMetadata_CueSheet :=
  {| media_catalog_number := EmptyString; lead_in := 88200; is_cd := true;
     num_tracks := 4 |}.

#[export] Instance scripted : Collaborators := {|
  pcm_buffer := Z;
  pcm_buffer_init := 0;
  pcm_buffer_get := fun capacity size => Z.max capacity size;
  pcm := unit;
  flac_convert := fun _ _ _ _ _ => tt;
  decoder := list decoder_command;
  replay_gain_info := unit;
  decoder_get_command := pending;
  decoder_data := fun script _ _ _ => (pending script, tl script);
  decoder_replay_gain := fun script _ => script;
  tag := list string;
  vorbis_comment := list string;
  flac_parse_replay_gain := fun _ => None;
  flac_vorbis_comments_to_tag := fun t vc => (t ++ vc)%list;
  audio_check_message := fun _ _ _ => "invalid audio format";
  FLAC__metadata_get_cuesheet := fun pathname =>
    if String.eqb pathname "album.flac" then Some album_cue_sheet else None
|}.

Definition cd_stream_info : FLAC__StreamMetadata_StreamInfo :=
  {| min_blocksize := 4096; max_blocksize := 4096;
     min_framesize := 14; max_framesize := 13000;
     sample_rate := 44100; channels := 2; bits_per_sample := 16;
     total_samples := 0; md5sum := [] |}.

Definition hires_stream_info : FLAC__StreamMetadata_StreamInfo :=
  {| min_blocksize := 4096; max_blocksize := 4096;
     min_framesize := 14; max_framesize := 26000;
     sample_rate := 96000; channels := 2; bits_per_sample := 24;
     total_samples := 0; md5sum := [] |}.

Definition odd_stream_info : FLAC__StreamMetadata_StreamInfo :=
  {| min_blocksize := 4096; max_blocksize := 4096;
     min_framesize := 14; max_framesize := 13000;
     sample_rate := 44100; channels := 2; bits_per_sample := 20;
     total_samples := 0; md5sum := [] |}.

(** The session after [flac_data_init], on memory that held zeros. *)
Definition fresh_data : flac_data :=
  flac_data_init
    {| buffer := 0; data_sample_format := SAMPLE_FORMAT_UNDEFINED;
       frame_size := 0; have_stream_info := false;
       stream_info := {| min_blocksize := 0; max_blocksize := 0;
                         min_framesize := 0; max_framesize := 0;
                         sample_rate := 0; channels := 0;
                         bits_per_sample := 0; total_samples := 0;
                         md5sum := [] |};
       first_frame := 0; next_frame := 0; position := 0;
       data_tag := None |}.

Definition start (script : list decoder_command) : world :=
  {| w_data := fresh_data; w_decoder := script; w_trace := [] |}.

Definition frame_of (blocksize rate nchannels : Z) : FLAC__Frame :=
  {| header := {| fh_blocksize := blocksize; fh_sample_rate := rate;
                  fh_channels := nchannels |} |}.

Definition delivery_of (blocksize nbytes : Z) : delivery :=
  {| dl_frame := frame_of blocksize 44100 2; dl_buf := []; dl_nbytes := nbytes |}.

(** A session whose frame counter is at the last value of its type. *)
Definition late (script : list decoder_command) : world :=
  with_data (start script)
            (set_next_frame fresh_data (CInt.UINT64_MOD - 1)).

Definition no_audio_format : audio_format :=
  {| af_sample_rate := 0; af_format := SAMPLE_FORMAT_UNDEFINED; af_channels := 0 |}.

End Fixture.

(** ** Notions for sequences of callbacks *)

Section Sequences.

Context `{Collaborators}.

(** The replay gains found in the comment blocks of a sequence, in order. *)
Fixpoint replay_gains (blocks : list FLAC__StreamMetadata)
    : list replay_gain_info :=
  match blocks with
  | [] => []
  | FLAC__METADATA_TYPE_VORBIS_COMMENT vc :: rest =>
      match flac_parse_replay_gain vc with
      | Some rgi => rgi :: replay_gains rest
      | None => replay_gains rest
      end
  | _ :: rest => replay_gains rest
  end.

(** The comment blocks of a sequence, in order. *)
Fixpoint comments_of (blocks : list FLAC__StreamMetadata)
    : list vorbis_comment :=
  match blocks with
  | [] => []
  | FLAC__METADATA_TYPE_VORBIS_COMMENT vc :: rest => vc :: comments_of rest
  | _ :: rest => comments_of rest
  end.

(** The part of the session that the frames are converted with. *)
Definition playback_state (d : flac_data)
    : pcm_buffer * sample_format * Z * (Z * Z * Z) :=
  (buffer d, data_sample_format d, frame_size d,
   (first_frame d, next_frame d, position d)).

(** The part of the session that comes from the metadata blocks. *)
Definition metadata_state (d : flac_data)
    : bool * FLAC__StreamMetadata_StreamInfo * option tag :=
  (have_stream_info d, stream_info d, data_tag d).

(** The audio data event of a delivery made with the frame size [fs]. *)
Definition delivers (fs : Z) (e : event) (d : delivery) : Prop :=
  exists chunk bit_rate,
    e = DecoderData chunk (CInt.uint_mul (blocksize_of d) fs) bit_rate.

(** The error callback over the errors of a stream, in order. *)
Definition report_errors (plugin : string) (w : world)
    (errors : list FLAC__StreamDecoderErrorStatus) : world :=
  fold_left (fun w status => flac_error_common_cb plugin status w) errors w.

Definition is_warning_event (e : event) : Prop :=
  match e with
  | Warning _ => True
  | _ => False
  end.

End Sequences.

(** ** Audio output initialisation (output_init.c) *)

(** [audio_output_init] works on a log and may end the process: [g_error]
    logs and aborts. A computation takes the log so far and either is
    done, with a value and the new log, or has aborted, with the log at
    that point. *)
Module OutputInit.

Inductive log_level : Type := LOG_WARNING | LOG_ERROR.

Definition log : Type := list (log_level * string).

Inductive result (A : Type) : Type :=
| Done (a : A) (l : log)
| Aborted (l : log).

Arguments Done {A} a l.
Arguments Aborted {A} l.

Definition io (A : Type) : Type := log -> result A.

Definition ret {A : Type} (a : A) : io A := fun l => Done a l.

Definition bind {A B : Type} (m : io A) (k : A -> io B) : io B :=
  fun l =>
    match m l with
    | Done a l' => k a l'
    | Aborted l' => Aborted l'
    end.

Notation "x <- m ;; k" := (bind m (fun x => k))
  (at level 61, m at next level, right associativity).
Notation "m ;;; k" := (bind m (fun _ => k))
  (at level 61, right associativity).

Definition g_warning (message : string) : io unit :=
  fun l => Done tt (l ++ [(LOG_WARNING, message)])%list.

Definition g_error {A : Type} (message : string) : io A :=
  fun l => Aborted (l ++ [(LOG_ERROR, message)])%list.

(** The conversion [%i]. *)
Definition fmt_i (n : Z) : string :=
  if n <? 0 then "-" ++ Libc.utoa (- n) else Libc.utoa n.

(** A double quote, and a text between two of them. *)
Definition dq : string := String (ascii_of_nat 34) EmptyString.

Definition quoted (s : string) : string := dq ++ s ++ dq.

(** The members of [BlockParam] that are read here. *)
Record BlockParam : Type := {
  value : string;
  line : Z
}.

(** The configuration, the plugin table and the initialisers of the
    parts of an output, all of other translation units. A plugin is known
    by its address; [test_default_device p] is [None] when the plugin has
    no such function and the outcome of the probe otherwise. *)
Class Environment : Type := {
  (* conf.h *)
  ConfigParam : Type;
  param_line : ConfigParam -> Z;
  getBlockParam : ConfigParam -> string -> option BlockParam;
  CONF_AUDIO_OUTPUT : string;
  (* output_api.h, output_list.h *)
  audio_output_plugin : Type;
  plugin_name : audio_output_plugin -> string;
  test_default_device : audio_output_plugin -> option bool;
  audio_output_plugins : list audio_output_plugin;
  audio_output_plugin_get : string -> option audio_output_plugin;
  plugin_data : Type;
  (* audio.h, audio_format.h: zero is success for the parser *)
  parseAudioConfig : string -> option audio_format;
  audio_format_clear : audio_format;
  (* pcm_convert.h, notify.h, output_internal.h *)
  pcm_convert_state : Type;
  pcm_convert_init : pcm_convert_state;
  notify : Type;
  notify_init : notify;
  audio_output_command : Type;
  AO_COMMAND_NONE : audio_output_command
}.

Section Init.

Context `{Environment}.

(** The members of [struct audio_output] that the function assigns. *)
Record audio_output : Type := {
  ao_name : string;
  ao_plugin : audio_output_plugin;
  ao_enabled : bool;
  ao_open : bool;
  ao_reopen_after : Z;
  ao_convBuffer : option (list Z);
  ao_convBufferLen : Z;
  ao_convState : pcm_convert_state;
  ao_reqAudioFormat : audio_format;
  ao_thread : Z;
  ao_notify : notify;
  ao_command : audio_output_command;
  ao_data : option plugin_data
}.

(** The method [init] of a plugin: it is given the output, which it
    reads, the requested format or the null pointer, and the
    configuration; the null pointer it may return is [None]. *)
Variable plugin_init :
  audio_output_plugin -> audio_output -> option audio_format ->
  option ConfigParam -> option plugin_data.

Definition AUDIO_OUTPUT_TYPE : string := "type".
Definition AUDIO_OUTPUT_NAME : string := "name".
Definition AUDIO_OUTPUT_FORMAT : string := "format".

(** The macro [getBlockParam (name, str, 1)]: a missing parameter is
    fatal, and [str] is the value of the one that is found. *)
Definition getBlockParam_forced (param : ConfigParam) (name : string)
    : io BlockParam :=
  match getBlockParam param name with
  | None =>
      g_error ("couldn't find parameter " ++ quoted name ++
               " in audio output definition beginning at " ++
               fmt_i (param_line param) ++ nl)
  | Some bp => ret bp
  end.

(** The macro [getBlockParam (name, str, 0)]: [bp] may be null, and then
    [str] stays null. *)
Definition getBlockParam_optional (param : ConfigParam) (name : string)
    : io (option BlockParam) :=
  ret (getBlockParam param name).

(** The loop over the plugin table: the first plugin whose probe
    succeeds, or the null pointer at the end of the table. *)
Fixpoint detect (plugins : list audio_output_plugin)
    : io (option audio_output_plugin) :=
  match plugins with
  | [] => ret None
  | plugin :: rest =>
      match test_default_device plugin with
      | Some probe =>
          g_warning ("Attempting to detect a " ++ plugin_name plugin ++
                     " audio device" ++ nl) ;;;
          if probe then
            g_warning ("Successfully detected a " ++ plugin_name plugin ++
                       " audio device" ++ nl) ;;;
            ret (Some plugin)
          else detect rest
      | None => detect rest
      end
  end.

(** What the first half of the function settles: the name, the block
    parameter of the format if there is one, and the plugin; [None] is
    the early return. *)
Definition select (param : option ConfigParam)
    : io (option (string * option BlockParam * audio_output_plugin)) :=
  match param with
  | Some param =>
      name <- getBlockParam_forced param AUDIO_OUTPUT_NAME ;;
      type <- getBlockParam_forced param AUDIO_OUTPUT_TYPE ;;
      format <- getBlockParam_optional param AUDIO_OUTPUT_FORMAT ;;
      match audio_output_plugin_get (value type) with
      | None =>
          g_error ("couldn't find audio output plugin for type " ++
                   quoted (value type) ++ " at line " ++
                   fmt_i (param_line param) ++ nl)
      | Some plugin => ret (Some (value name, format, plugin))
      end
  | None =>
      g_warning ("No " ++ quoted CONF_AUDIO_OUTPUT ++
                 " defined in config file" ++ nl) ;;;
      g_warning ("Attempt to detect audio output device" ++ nl) ;;;
      plugin <- detect audio_output_plugins ;;
      match plugin with
      | None =>
          g_warning ("Unable to detect an audio device" ++ nl) ;;;
          ret None
      | Some plugin => ret (Some ("default detected output", None, plugin))
      end
  end.

(** [audio_output_init]: the value returned and the output as the
    function leaves it. *)
Definition audio_output_init (ao : audio_output) (param : option ConfigParam)
    : io (Z * audio_output) :=
  selected <- select param ;;
  match selected with
  | None => ret (0, ao)
  | Some (name, format, plugin) =>
      req <- match format with
             | Some bp =>
                 match parseAudioConfig (value bp) with
                 | Some af => ret af
                 | None =>
                     g_error ("error parsing format at line " ++
                              fmt_i (line bp) ++ nl)
                 end
             | None => ret audio_format_clear
             end ;;
      let ao :=
        {| ao_name := name; ao_plugin := plugin;
           ao_enabled := true; ao_open := false; ao_reopen_after := 0;
           ao_convBuffer := None; ao_convBufferLen := 0;
           ao_convState := pcm_convert_init;
           ao_reqAudioFormat := req;
           ao_thread := 0; ao_notify := notify_init;
           ao_command := AO_COMMAND_NONE;
           ao_data := ao_data ao |} in
      let data :=
        plugin_init plugin ao
                    (match format with Some _ => Some req | None => None end)
                    param in
      let ao :=
        {| ao_name := ao_name ao; ao_plugin := ao_plugin ao;
           ao_enabled := ao_enabled ao; ao_open := ao_open ao;
           ao_reopen_after := ao_reopen_after ao;
           ao_convBuffer := ao_convBuffer ao;
           ao_convBufferLen := ao_convBufferLen ao;
           ao_convState := ao_convState ao;
           ao_reqAudioFormat := ao_reqAudioFormat ao;
           ao_thread := ao_thread ao; ao_notify := ao_notify ao;
           ao_command := ao_command ao;
           ao_data := data |} in
      match data with
      | None => ret (0, ao)
      | Some _ => ret (1, ao)
      end
  end.

(** The text of the two fatal diagnostics of a configured output that
    name the block. *)
Definition missing_parameter (name : string) (param : ConfigParam) : string :=
  "couldn't find parameter " ++ quoted name ++
  " in audio output definition beginning at " ++ fmt_i (param_line param) ++ nl.

Definition unknown_plugin (type : string) (param : ConfigParam) : string :=
  "couldn't find audio output plugin for type " ++ quoted type ++
  " at line " ++ fmt_i (param_line param) ++ nl.

(** The output a plugin is initialised with, and the one that is left. *)
Definition prepared (ao : audio_output) (name : string)
    (plugin : audio_output_plugin) (req : audio_format) : audio_output :=
  {| ao_name := name; ao_plugin := plugin;
     ao_enabled := true; ao_open := false; ao_reopen_after := 0;
     ao_convBuffer := None; ao_convBufferLen := 0;
     ao_convState := pcm_convert_init; ao_reqAudioFormat := req;
     ao_thread := 0; ao_notify := notify_init;
     ao_command := AO_COMMAND_NONE; ao_data := ao_data ao |}.

Definition set_data (ao : audio_output) (data : option plugin_data)
    : audio_output :=
  {| ao_name := ao_name ao; ao_plugin := ao_plugin ao;
     ao_enabled := ao_enabled ao; ao_open := ao_open ao;
     ao_reopen_after := ao_reopen_after ao;
     ao_convBuffer := ao_convBuffer ao;
     ao_convBufferLen := ao_convBufferLen ao;
     ao_convState := ao_convState ao;
     ao_reqAudioFormat := ao_reqAudioFormat ao;
     ao_thread := ao_thread ao; ao_notify := ao_notify ao;
     ao_command := ao_command ao; ao_data := data |}.

Definition status_of (data : option plugin_data) : Z :=
  match data with
  | None => 0
  | Some _ => 1
  end.

Definition format_error (bp : BlockParam) : string :=
  "error parsing format at line " ++ fmt_i (line bp) ++ nl.

Definition detected_message (plugin : audio_output_plugin) : string :=
  "Successfully detected a " ++ plugin_name plugin ++ " audio device" ++ nl.

Definition attempt_message (plugin : audio_output_plugin) : string :=
  "Attempting to detect a " ++ plugin_name plugin ++ " audio device" ++ nl.

Definition undefined_message : string :=
  "No " ++ quoted CONF_AUDIO_OUTPUT ++ " defined in config file" ++ nl.

Definition attempt_all_message : string :=
  "Attempt to detect audio output device" ++ nl.

Definition unable_message : string :=
  "Unable to detect an audio device" ++ nl.

Definition is_warning (entry : log_level * string) : Prop :=
  fst entry = LOG_WARNING.

(** The probe of a plugin succeeds. *)
Definition detected (plugin : audio_output_plugin) : bool :=
  match test_default_device plugin with
  | Some true => true
  | _ => false
  end.

End Init.

(** A configuration to run the function with: a block is the line it
    begins at and its parameters by name; three plugins, of which "null"
    cannot be probed, "alsa" has no device and "oss" has one; a format
    parses when it is "44100:16:2". *)
Module Sample.

Definition cd_format : audio_format :=
  {| af_sample_rate := 44100; af_format := SAMPLE_FORMAT_S16; af_channels := 2 |}.

Definition no_format : audio_format :=
  {| af_sample_rate := 0; af_format := SAMPLE_FORMAT_UNDEFINED; af_channels := 0 |}.

Definition lookup (params : list (string * BlockParam)) (name : string)
    : option BlockParam :=
  match find (fun p => String.eqb (fst p) name) params with
  | Some p => Some (snd p)
  | None => None
  end.

#[export] Instance environment : Environment := {|
  ConfigParam := Z * list (string * BlockParam);
  param_line := fst;
  getBlockParam := fun param name => lookup (snd param) name;
  CONF_AUDIO_OUTPUT := "audio_output";
  audio_output_plugin := string;
  plugin_name := fun p => p;
  test_default_device := fun p =>
    if String.eqb p "alsa" then Some false
    else if String.eqb p "oss" then Some true
    else None;
  audio_output_plugins := ["null"; "alsa"; "oss"];
  audio_output_plugin_get := fun name =>
    find (String.eqb name) ["null"; "alsa"; "oss"];
  plugin_data := string;
  parseAudioConfig := fun s =>
    if String.eqb s "44100:16:2" then Some cd_format else None;
  audio_format_clear := no_format;
  pcm_convert_state := unit;
  pcm_convert_init := tt;
  notify := unit;
  notify_init := tt;
  audio_output_command := unit;
  AO_COMMAND_NONE := tt
|}.

(** Every plugin but "null" opens. *)
Definition init_plugin (plugin : string) (ao : audio_output)
    (af : option audio_format) (param : option (Z * list (string * BlockParam)))
    : option string :=
  if String.eqb plugin "null" then None else Some plugin.

Definition blank : audio_output :=
  {| ao_name := EmptyString; ao_plugin := "null"; ao_enabled := false;
     ao_open := true; ao_reopen_after := 7; ao_convBuffer := Some [];
     ao_convBufferLen := 0; ao_convState := tt; ao_reqAudioFormat := cd_format;
     ao_thread := 3; ao_notify := tt; ao_command := tt; ao_data := None |}.

Definition block (first_line : Z) (params : list (string * BlockParam))
    : Z * list (string * BlockParam) :=
  (first_line, params).

Definition oss_block : Z * list (string * BlockParam) :=
  block 10 [("name", {| value := "speakers"; line := 11 |});
            ("type", {| value := "oss"; line := 12 |});
            ("format", {| value := "44100:16:2"; line := 13 |})].

Definition nameless_block : Z * list (string * BlockParam) :=
  block 20 [("type", {| value := "oss"; line := 21 |})].

End Sample.

End OutputInit.

(** * Properties *)

(** ** Fixed-width arithmetic *)

Module CIntFacts.
Import CInt.

Lemma to_uint_small x : 0 <= x < UINT_MOD -> to_uint x = x.
Proof. intros Hx. unfold to_uint. now apply Z.mod_small. Qed.

Lemma to_uint64_small x : 0 <= x < UINT64_MOD -> to_uint64 x = x.
Proof. intros Hx. unfold to_uint64. now apply Z.mod_small. Qed.

Lemma uint64_add_assoc a b c :
  uint64_add (uint64_add a b) c = uint64_add a (b + c).
Proof.
  unfold uint64_add, to_uint64.
  rewrite Z.add_mod_idemp_l by (unfold UINT64_MOD; lia).
  f_equal. lia.
Qed.

Lemma uint64_mul_assoc a b c :
  uint64_mul (uint64_mul a b) c = to_uint64 (a * b * c).
Proof.
  unfold uint64_mul, to_uint64.
  now rewrite Z.mul_mod_idemp_l by (unfold UINT64_MOD; lia).
Qed.

Lemma clamp_long_small v :
  0 <= v < UINT_MOD -> Libc.clamp_long v = v.
Proof.
  intros Hv. unfold Libc.clamp_long, LONG_MAX, LONG_MIN, UINT_MOD in *.
  destruct (v >? 2 ^ 63 - 1) eqn:E1; [lia|].
  destruct (v <? - 2 ^ 63) eqn:E2; [lia|]. reflexivity.
Qed.

End CIntFacts.

(** ** Characters, numbers and strings *)

Module LibcFacts.
Import Libc.

Lemma append_assoc (s t u : string) : (s ++ t) ++ u = s ++ (t ++ u).
Proof. induction s as [|a s IH]; [reflexivity|]. simpl. now rewrite IH. Qed.

Lemma append_nil (s : string) : s ++ EmptyString = s.
Proof. induction s as [|a s IH]; [reflexivity|]. simpl. now rewrite IH. Qed.

Lemma digit_char_spec d :
  0 <= d < 10 ->
  isdigit (digit_char d) = true /\ digit_value (digit_char d) = d /\
  digit_char d <> "_"%char.
Proof.
  intros Hd.
  assert (Hc : d = 0 \/ d = 1 \/ d = 2 \/ d = 3 \/ d = 4 \/
               d = 5 \/ d = 6 \/ d = 7 \/ d = 8 \/ d = 9) by lia.
  repeat (destruct Hc as [Hc | Hc]; [subst d; repeat split; discriminate || reflexivity|]).
  subst d; repeat split; discriminate || reflexivity.
Qed.

Lemma isdigit_not_underscore c : isdigit c = true -> c <> "_"%char.
Proof. intros Hc ->. discriminate Hc. Qed.

(** A digit is no white space and no sign: [strtol] starts to read at it. *)
Lemma strtol10_at_digit c rest :
  isdigit c = true ->
  strtol10 (String c rest) = clamp_long (read_digits 0 (String c rest)).
Proof.
  intros Hc.
  destruct c as [[] [] [] [] [] [] [] []]; try discriminate Hc; reflexivity.
Qed.

Lemma strtol10_no_subject c rest :
  isdigit c = false -> isspace c = false ->
  c <> "+"%char -> c <> "-"%char ->
  strtol10 (String c rest) = 0.
Proof.
  intros Hd Hs Hp Hm.
  destruct c as [[] [] [] [] [] [] [] []];
    try discriminate Hd; try discriminate Hs; try congruence; reflexivity.
Qed.

Lemma strtol10_plus rest : strtol10 (String "+" rest) = clamp_long (read_digits 0 rest).
Proof. reflexivity. Qed.

Lemma strtol10_minus rest :
  strtol10 (String "-" rest) = clamp_long (- read_digits 0 rest).
Proof. reflexivity. Qed.

Lemma strtol10_spaces sp rest :
  all_spaces sp = true -> strtol10 (sp ++ rest) = strtol10 rest.
Proof.
  intros Hsp. unfold strtol10.
  assert (Hskip : skip_spaces (sp ++ rest) = skip_spaces rest).
  { induction sp as [|c sp IH]; [reflexivity|].
    simpl in Hsp. apply andb_prop in Hsp as [Hc Hsp].
    simpl. rewrite Hc. auto. }
  now rewrite Hskip.
Qed.

Lemma isspace_not_underscore c : isspace c = true -> c <> "_"%char.
Proof. intros Hc ->. discriminate Hc. Qed.

Lemma read_digits_decimal ds : forall acc rest,
  all_digits ds = true -> no_leading_digit rest ->
  read_digits acc (ds ++ rest) = decimal acc ds.
Proof.
  induction ds as [|c ds IH]; intros acc rest Hds Hrest.
  - destruct rest as [|r rest]; [reflexivity|].
    simpl in *. now rewrite Hrest.
  - simpl in Hds. apply andb_prop in Hds as [Hc Hds].
    simpl. rewrite Hc. now apply IH.
Qed.

Lemma strrchr_skip a s c :
  a <> c -> strrchr (String a s) c = strrchr s c.
Proof.
  intros Hne. simpl. destruct (strrchr s c); [reflexivity|].
  destruct (Ascii.eqb_spec a c); [contradiction|reflexivity].
Qed.

Lemma strrchr_absent c s : absent c s -> strrchr s c = None.
Proof.
  induction s as [|a s IH]; [reflexivity|].
  intros [Hne Hs]. rewrite strrchr_skip by assumption. auto.
Qed.

Lemma strrchr_found c s : absent c s -> strrchr (String c s) c = Some (String c s).
Proof.
  intros Hs. simpl. rewrite strrchr_absent by assumption.
  now rewrite Ascii.eqb_refl.
Qed.

(** An occurrence further right wins over anything put in front. *)
Lemma strrchr_app c pre s p :
  strrchr s c = Some p -> strrchr (pre ++ s) c = Some p.
Proof.
  intros Hs. induction pre as [|a pre IH]; [exact Hs|].
  simpl. now rewrite IH.
Qed.

Lemma absent_app c s t : absent c s -> absent c t -> absent c (s ++ t).
Proof.
  induction s as [|a s IH]; [auto|]. intros [Hne Hs] Ht. split; auto.
Qed.

Lemma all_digits_absent s : all_digits s = true -> absent "_" s.
Proof.
  induction s as [|a s IH]; [easy|].
  simpl. intros Hs. apply andb_prop in Hs as [Ha Hs].
  split; [now apply isdigit_not_underscore | auto].
Qed.

Lemma all_spaces_absent s : all_spaces s = true -> absent "_" s.
Proof.
  induction s as [|a s IH]; [easy|].
  simpl. intros Hs. apply andb_prop in Hs as [Ha Hs].
  split; [now apply isspace_not_underscore | auto].
Qed.

Lemma is_sign_absent s : is_sign s -> absent "_" s.
Proof.
  intros [-> | [-> | ->]]; simpl; repeat split; discriminate.
Qed.

Lemma all_digits_app s t :
  all_digits s = true -> all_digits t = true -> all_digits (s ++ t) = true.
Proof.
  induction s as [|a s IH]; [auto|].
  simpl. intros Hs Ht. apply andb_prop in Hs as [Ha Hs].
  rewrite Ha. simpl. auto.
Qed.

Lemma decimal_app s : forall acc t, decimal acc (s ++ t) = decimal (decimal acc s) t.
Proof. induction s as [|a s IH]; intros acc t; [reflexivity|]. simpl. apply IH. Qed.

Lemma all_digits_zeros k : all_digits (zeros k) = true.
Proof. induction k as [|k IH]; [reflexivity|exact IH]. Qed.

Lemma decimal_zeros k : decimal 0 (zeros k) = 0.
Proof. induction k as [|k IH]; [reflexivity|exact IH]. Qed.

(** The digits [utoa_aux] writes, read back. *)
Lemma utoa_aux_spec fuel : forall n acc,
  0 <= n < 2 ^ (Z.of_nat fuel + 1) ->
  exists ds, utoa_aux fuel n acc = ds ++ acc /\
             all_digits ds = true /\ ds <> EmptyString /\ decimal 0 ds = n.
Proof.
  induction fuel as [|fuel IH]; intros n acc Hn.
  - exists (String (digit_char (n mod 10)) EmptyString).
    assert (Hsmall : n mod 10 = n) by (apply Z.mod_small; simpl in Hn; lia).
    destruct (digit_char_spec (n mod 10)) as (Hd & Hv & _);
      [apply Z.mod_pos_bound; lia|].
    simpl. rewrite Hd, Hv. repeat split; [discriminate | exact Hsmall].
  - destruct (digit_char_spec (n mod 10)) as (Hd & Hv & _);
      [apply Z.mod_pos_bound; lia|].
    simpl utoa_aux. destruct (n / 10 =? 0) eqn:Hq.
    + exists (String (digit_char (n mod 10)) EmptyString).
      apply Z.eqb_eq in Hq.
      assert (Hsmall : n mod 10 = n).
      { pose proof (Z.div_mod n 10 ltac:(lia)). lia. }
      simpl. rewrite Hd, Hv. repeat split; [discriminate | exact Hsmall].
    + destruct (IH (n / 10) (String (digit_char (n mod 10)) acc))
        as (ds & Heq & Hds & Hne & Hval).
      { split; [apply Z.div_pos; lia|].
        apply Z.div_lt_upper_bound; [lia|].
        replace (Z.of_nat (S fuel) + 1) with (Z.succ (Z.of_nat fuel + 1)) in Hn by lia.
        rewrite Z.pow_succ_r in Hn by lia. lia. }
      exists (ds ++ String (digit_char (n mod 10)) EmptyString).
      rewrite Heq. repeat split.
      * now rewrite append_assoc.
      * apply all_digits_app; [assumption|]. simpl. now rewrite Hd.
      * destruct ds; [contradiction | discriminate].
      * rewrite decimal_app, Hval. simpl. rewrite Hv.
        pose proof (Z.div_mod n 10 ltac:(lia)). lia.
Qed.

Lemma utoa_spec n :
  0 <= n ->
  all_digits (utoa n) = true /\ utoa n <> EmptyString /\ decimal 0 (utoa n) = n.
Proof.
  intros Hn. unfold utoa.
  destruct (utoa_aux_spec (Z.to_nat (Z.log2 n)) n EmptyString) as (ds & Heq & Hds & Hne & Hval).
  { split; [assumption|].
    rewrite Z2Nat.id by apply Z.log2_nonneg.
    destruct (Z.eq_dec n 0) as [->|Hnz]; [reflexivity|].
    rewrite Z.add_1_r. apply Z.log2_spec. lia. }
  rewrite Heq, append_nil. auto.
Qed.

Lemma fmt_03u_spec n :
  0 <= n ->
  all_digits (fmt_03u n) = true /\ fmt_03u n <> EmptyString /\
  decimal 0 (fmt_03u n) = n.
Proof.
  intros Hn. destruct (utoa_spec n Hn) as (Hds & Hne & Hval).
  unfold fmt_03u. cbv zeta. repeat split.
  - apply all_digits_app; [apply all_digits_zeros | assumption].
  - destruct (utoa n); [contradiction|].
    destruct (zeros (3 - String.length (String a s))); discriminate.
  - now rewrite decimal_app, decimal_zeros.
Qed.

(** Below a thousand the field is exactly three characters wide. *)
Lemma fmt_03u_width n :
  0 <= n < 1000 -> String.length (fmt_03u n) = 3%nat.
Proof.
  intros Hn.
  assert (Hall : forallb (fun k => Nat.eqb (String.length (fmt_03u (Z.of_nat k))) 3)
                         (List.seq 0 1000) = true) by (vm_compute; reflexivity).
  rewrite forallb_forall in Hall.
  specialize (Hall (Z.to_nat n)).
  rewrite Z2Nat.id in Hall by lia.
  apply Nat.eqb_eq, Hall, in_seq. lia.
Qed.

End LibcFacts.

(** ** The functions on some inputs *)

Module Examples.

Example fmt_03u_7 : Libc.fmt_03u 7 = "007".
Proof. reflexivity. Qed.

Example fmt_03u_1234 : Libc.fmt_03u 1234 = "1234".
Proof. reflexivity. Qed.

Example strtol10_sign_and_space : Libc.strtol10 "  -12abc" = -12.
Proof. reflexivity. Qed.

Example strtol10_out_of_range :
  Libc.strtol10 "99999999999999999999" = CInt.LONG_MAX.
Proof. reflexivity. Qed.

Example strrchr_last : Libc.strrchr "a_b_c" "_" = Some "_c".
Proof. reflexivity. Qed.

Example vtrack_tnum_two_underscores : flac_vtrack_tnum "cd_1_track_042.flac" = 42.
Proof. reflexivity. Qed.

Example vtrack_tnum_beyond_unsigned : flac_vtrack_tnum "track_4294967303" = 7.
Proof. reflexivity. Qed.

Example bit_rate_cd_frame :
  bit_rate_of 9000 {| fh_blocksize := 4096; fh_sample_rate := 44100;
                      fh_channels := 2 |} = Some 775.
Proof. reflexivity. Qed.

Example bit_rate_no_block :
  bit_rate_of 9000 {| fh_blocksize := 0; fh_sample_rate := 44100;
                      fh_channels := 2 |} = None.
Proof. reflexivity. Qed.

Example cue_track_third :
  @flac_cue_track Fixture.scripted "album.flac" 3 = Some "track_003.flac".
Proof. reflexivity. Qed.

Example cue_track_no_cue_sheet :
  @flac_cue_track Fixture.scripted "single.flac" 1 = None.
Proof. reflexivity. Qed.

Example write_then_stop :
  option_map fst
    (deliver_all (Fixture.start [DECODE_COMMAND_NONE; DECODE_COMMAND_STOP])
                 [Fixture.delivery_of 4096 0; Fixture.delivery_of 4096 9000]) =
  Some [FLAC__STREAM_DECODER_WRITE_STATUS_CONTINUE;
        FLAC__STREAM_DECODER_WRITE_STATUS_ABORT].
Proof. reflexivity. Qed.

End Examples.

(** ** Virtual track names *)

Module TrackFacts.
Import Libc.

Lemma decimal_nonneg ds : forall acc,
  all_digits ds = true -> 0 <= acc -> 0 <= decimal acc ds.
Proof.
  induction ds as [|c ds IH]; intros acc Hds Hacc; [exact Hacc|].
  simpl in Hds. apply andb_prop in Hds as [Hc Hds].
  simpl. apply IH; [assumption|].
  unfold isdigit in Hc. apply andb_prop in Hc as [Hlo _].
  unfold digit_value. lia.
Qed.

(** The pointer [strrchr] returns when the last underscore is known. *)
Lemma last_underscore pre suffix :
  absent "_" suffix ->
  strrchr (pre ++ "_" ++ suffix) "_" = Some (String "_" suffix).
Proof.
  intros Hs. apply LibcFacts.strrchr_app. now apply LibcFacts.strrchr_found.
Qed.

(** The text after the last underscore in the shape [strtol] reads it:
    white space, a sign, digits, and what is left. *)
Lemma vtrack_tnum_subject pre sp sign ds rest :
  all_spaces sp = true -> is_sign sign -> all_digits ds = true ->
  no_leading_digit rest -> absent "_" rest ->
  (sign = EmptyString -> ds = EmptyString -> plain_start rest) ->
  flac_vtrack_tnum (pre ++ "_" ++ sp ++ sign ++ ds ++ rest) =
    CInt.to_uint (clamp_long (apply_sign sign (decimal 0 ds))).
Proof.
  intros Hsp Hsign Hds Hrest Habs Hplain.
  unfold flac_vtrack_tnum.
  rewrite last_underscore.
  2:{ apply LibcFacts.absent_app; [now apply LibcFacts.all_spaces_absent|].
      apply LibcFacts.absent_app; [now apply LibcFacts.is_sign_absent|].
      apply LibcFacts.absent_app; [now apply LibcFacts.all_digits_absent|assumption]. }
  simpl next. rewrite LibcFacts.strtol10_spaces by assumption.
  destruct Hsign as [-> | [-> | ->]].
  - change (EmptyString ++ ds ++ rest) with (ds ++ rest).
    change (apply_sign EmptyString (decimal 0 ds)) with (decimal 0 ds).
    destruct ds as [|c ds].
    + specialize (Hplain eq_refl eq_refl). simpl.
      destruct rest as [|c rest]; [reflexivity|].
      simpl in Hrest, Hplain. destruct Hplain as (Hs & Hp & Hm).
      now rewrite LibcFacts.strtol10_no_subject.
    + pose proof Hds as Hc. simpl in Hc. apply andb_prop in Hc as [Hc _].
      change (String c ds ++ rest) with (String c (ds ++ rest)).
      rewrite LibcFacts.strtol10_at_digit by assumption.
      change (String c (ds ++ rest)) with (String c ds ++ rest).
      now rewrite LibcFacts.read_digits_decimal.
  - change ("+" ++ ds ++ rest) with (String "+" (ds ++ rest)).
    rewrite LibcFacts.strtol10_plus.
    now rewrite LibcFacts.read_digits_decimal.
  - change ("-" ++ ds ++ rest) with (String "-" (ds ++ rest)).
    rewrite LibcFacts.strtol10_minus.
    now rewrite LibcFacts.read_digits_decimal.
Qed.

(** A name whose last underscore is followed by digits. *)
Lemma vtrack_tnum_digits pre ds rest :
  all_digits ds = true -> ds <> EmptyString ->
  no_leading_digit rest -> absent "_" rest ->
  flac_vtrack_tnum (pre ++ "_" ++ ds ++ rest) =
    CInt.to_uint (clamp_long (decimal 0 ds)).
Proof.
  intros Hds Hne Hrest Habs.
  apply (vtrack_tnum_subject pre EmptyString EmptyString ds rest); try assumption.
  - reflexivity.
  - now left.
  - intros _ Hempty. contradiction.
Qed.

Lemma vtrack_tnum_small pre ds rest :
  all_digits ds = true -> ds <> EmptyString ->
  no_leading_digit rest -> absent "_" rest ->
  decimal 0 ds < CInt.UINT_MOD ->
  flac_vtrack_tnum (pre ++ "_" ++ ds ++ rest) = decimal 0 ds.
Proof.
  intros Hds Hne Hrest Habs Hlt.
  rewrite vtrack_tnum_digits by assumption.
  assert (0 <= decimal 0 ds) by (apply decimal_nonneg; [assumption|lia]).
  rewrite CIntFacts.clamp_long_small by lia.
  apply CIntFacts.to_uint_small. lia.
Qed.

Lemma flac_suffix_shape :
  no_leading_digit ".flac" /\ absent "_" ".flac".
Proof. split; [reflexivity|]. simpl. repeat split; discriminate. Qed.

Lemma cue_track_accepts `{Collaborators} pathname cs tnum :
  FLAC__metadata_get_cuesheet pathname = Some cs ->
  num_tracks cs > 1 -> 1 <= tnum < num_tracks cs ->
  flac_cue_track pathname tnum = Some ("track_" ++ fmt_03u tnum ++ ".flac").
Proof.
  intros Hcs HT Htnum. unfold flac_cue_track. rewrite Hcs.
  destruct (num_tracks cs <=? 1) eqn:E1; [lia|].
  destruct (tnum >? 0) eqn:E2; [|lia].
  destruct (tnum <? num_tracks cs) eqn:E3; [reflexivity|lia].
Qed.

Lemma cue_track_rejects `{Collaborators} pathname cs tnum :
  FLAC__metadata_get_cuesheet pathname = Some cs ->
  ~ (num_tracks cs > 1 /\ 1 <= tnum < num_tracks cs) ->
  flac_cue_track pathname tnum = None.
Proof.
  intros Hcs Hout. unfold flac_cue_track. rewrite Hcs.
  destruct (num_tracks cs <=? 1) eqn:E1; [reflexivity|].
  destruct (tnum >? 0) eqn:E2; [|reflexivity].
  destruct (tnum <? num_tracks cs) eqn:E3; [|reflexivity].
  exfalso. apply Hout. lia.
Qed.

End TrackFacts.

(** C8. For a file whose cue sheet has [num_tracks cs] tracks,
    [flac_cue_track] returns the name "track_NNN.flac" exactly when the
    cue sheet has more than one track and [1 <= tnum < num_tracks cs],
    and the null pointer otherwise. NNN is [tnum] in decimal digits,
    three of them as long as [tnum] is below a thousand. One track gives
    no name at any index; four tracks give "track_002.flac" at index 2
    and no name at index 0 or 4. *)
Theorem flac_cue_track_spec `{Collaborators} (pathname : string)
    (cs : FLAC__StreamMetadata_CueSheet) (tnum : Z) :
  FLAC__metadata_get_cuesheet pathname = Some cs ->
  (num_tracks cs > 1 /\ 1 <= tnum < num_tracks cs ->
     flac_cue_track pathname tnum =
       Some ("track_" ++ Libc.fmt_03u tnum ++ ".flac") /\
     all_digits (Libc.fmt_03u tnum) = true /\
     decimal 0 (Libc.fmt_03u tnum) = tnum /\
     (tnum < 1000 -> String.length (Libc.fmt_03u tnum) = 3%nat)) /\
  (~ (num_tracks cs > 1 /\ 1 <= tnum < num_tracks cs) ->
     flac_cue_track pathname tnum = None) /\
  (num_tracks cs = 1 -> flac_cue_track pathname tnum = None) /\
  (num_tracks cs = 4 ->
     flac_cue_track pathname 2 = Some "track_002.flac" /\
     flac_cue_track pathname 0 = None /\
     flac_cue_track pathname 4 = None).
Proof.
  intros Hcs. repeat apply conj.
  - intros [HT Htnum].
    destruct (LibcFacts.fmt_03u_spec tnum) as (Hds & _ & Hval); [lia|].
    repeat apply conj; try assumption.
    + now apply TrackFacts.cue_track_accepts with cs.
    + intros Hlt. apply LibcFacts.fmt_03u_width. lia.
  - now apply TrackFacts.cue_track_rejects.
  - intros HT. apply TrackFacts.cue_track_rejects with cs; [assumption|lia].
  - intros HT. repeat apply conj.
    + rewrite (TrackFacts.cue_track_accepts pathname cs 2) by (assumption || lia).
      reflexivity.
    + apply TrackFacts.cue_track_rejects with cs; [assumption|lia].
    + apply TrackFacts.cue_track_rejects with cs; [assumption|lia].
Qed.

Lemma flac_cue_track_spec_witness :
  @FLAC__metadata_get_cuesheet Fixture.scripted "album.flac" =
    Some Fixture.album_cue_sheet /\
  @flac_cue_track Fixture.scripted "album.flac" 2 = Some "track_002.flac" /\
  @flac_cue_track Fixture.scripted "album.flac" 4 = None.
Proof.
  split; [reflexivity|].
  destruct (@flac_cue_track_spec Fixture.scripted "album.flac"
              Fixture.album_cue_sheet 2 eq_refl) as (_ & _ & _ & H4).
  destruct (H4 eq_refl) as (H2 & _ & H4'). split; assumption.
Defined.

(** C9, as the code has it. [flac_vtrack_tnum] returns 0 for a name
    without underscore. Otherwise it hands the text after the last
    underscore to [strtol] in base 10 and converts the result to
    [unsigned]: white space and then one sign are passed over, the
    decimal digits that follow are read as a number, which is negated
    after a minus sign, limited to the range of [long] and reduced
    modulo 2^32. So when the text begins with decimal digits and their
    number is below 2^32 the result is that number, and when no decimal
    digit follows the white space and the sign the result is 0.
    "track_007.flac" gives 7 and "album.flac" gives 0. *)
Theorem flac_vtrack_tnum_spec :
  (forall fname, absent "_" fname -> flac_vtrack_tnum fname = 0) /\
  (forall pre sp sign ds rest,
     all_spaces sp = true -> is_sign sign -> all_digits ds = true ->
     no_leading_digit rest -> absent "_" rest ->
     (sign = EmptyString -> ds = EmptyString -> plain_start rest) ->
     flac_vtrack_tnum (pre ++ "_" ++ sp ++ sign ++ ds ++ rest) =
       (Libc.clamp_long (apply_sign sign (decimal 0 ds))) mod 2 ^ 32) /\
  (forall pre ds rest,
     all_digits ds = true -> ds <> EmptyString ->
     no_leading_digit rest -> absent "_" rest ->
     decimal 0 ds < 2 ^ 32 ->
     flac_vtrack_tnum (pre ++ "_" ++ ds ++ rest) = decimal 0 ds) /\
  (forall pre sp sign rest,
     all_spaces sp = true -> is_sign sign ->
     no_leading_digit rest -> absent "_" rest ->
     (sign = EmptyString -> plain_start rest) ->
     flac_vtrack_tnum (pre ++ "_" ++ sp ++ sign ++ rest) = 0) /\
  flac_vtrack_tnum "track_007.flac" = 7 /\
  flac_vtrack_tnum "album.flac" = 0.
Proof.
  split; [|split; [|split; [|split; [|split]]]].
  - intros fname Habs. unfold flac_vtrack_tnum.
    now rewrite LibcFacts.strrchr_absent.
  - intros pre sp sign ds rest Hsp Hsign Hds Hrest Habs Hplain.
    now apply TrackFacts.vtrack_tnum_subject.
  - intros pre ds rest Hds Hne Hrest Habs Hlt.
    now apply TrackFacts.vtrack_tnum_small.
  - intros pre sp sign rest Hsp Hsign Hrest Habs Hplain.
    change (pre ++ "_" ++ sp ++ sign ++ rest)
      with (pre ++ "_" ++ sp ++ sign ++ EmptyString ++ rest).
    rewrite (TrackFacts.vtrack_tnum_subject pre sp sign EmptyString rest);
      try assumption; try reflexivity.
    + destruct Hsign as [-> | [-> | ->]]; reflexivity.
    + intros Hs _. auto.
  - reflexivity.
  - reflexivity.
Qed.

Lemma flac_vtrack_tnum_spec_witness :
  flac_vtrack_tnum "album.flac" = 0 /\
  flac_vtrack_tnum "disc_2_010.flac" = 10 /\
  flac_vtrack_tnum "take_ -3" = 4294967293 /\
  flac_vtrack_tnum "side_b.flac" = 0.
Proof.
  destruct flac_vtrack_tnum_spec as (Hnone & Hsubject & Hdigits & Hother & _).
  repeat apply conj.
  - apply (Hnone "album.flac"). simpl. repeat split; discriminate.
  - apply (Hdigits "disc_2" "010" ".flac");
      [reflexivity | discriminate | reflexivity
      | simpl; repeat split; discriminate | reflexivity].
  - apply (Hsubject "take" " " "-" "3" EmptyString);
      [reflexivity | right; right; reflexivity | reflexivity
      | exact I | exact I | discriminate].
  - apply (Hother "side" EmptyString EmptyString "b.flac");
      [reflexivity | left; reflexivity | reflexivity
      | simpl; repeat split; discriminate
      | intros _; simpl; repeat split; discriminate].
Defined.

(** C9 as stated fails: the text after the last underscore of
    "track_+7.flac" begins with a sign, not with a decimal digit, and the
    result is 7, not 0. *)
Lemma flac_vtrack_tnum_sign_counterexample :
  Libc.strrchr "track_+7.flac" "_" = Some "_+7.flac" /\
  Libc.isdigit "+" = false /\
  flac_vtrack_tnum "track_+7.flac" = 7 /\
  flac_vtrack_tnum "track_+7.flac" <> 0.
Proof. repeat split. discriminate. Qed.

(** C10. On every index [flac_cue_track] accepts, [flac_vtrack_tnum]
    reads the index back from the name [flac_cue_track] made. The cue
    sheet's track count is an [unsigned]. *)
Theorem flac_vtrack_tnum_cue_track `{Collaborators} (pathname : string)
    (cs : FLAC__StreamMetadata_CueSheet) (tnum : Z) :
  FLAC__metadata_get_cuesheet pathname = Some cs ->
  num_tracks cs > 1 ->
  1 <= tnum < num_tracks cs ->
  num_tracks cs < CInt.UINT_MOD ->
  exists track,
    flac_cue_track pathname tnum = Some track /\
    flac_vtrack_tnum track = tnum.
Proof.
  intros Hcs HT Htnum Hmax.
  exists ("track_" ++ Libc.fmt_03u tnum ++ ".flac"). split.
  - now apply TrackFacts.cue_track_accepts with cs.
  - destruct (LibcFacts.fmt_03u_spec tnum) as (Hds & Hne & Hval); [lia|].
    destruct TrackFacts.flac_suffix_shape as [Hshape Habs].
    change ("track_" ++ Libc.fmt_03u tnum ++ ".flac")
      with ("track" ++ "_" ++ Libc.fmt_03u tnum ++ ".flac").
    rewrite TrackFacts.vtrack_tnum_small; try assumption; lia.
Qed.

Lemma flac_vtrack_tnum_cue_track_witness :
  @FLAC__metadata_get_cuesheet Fixture.scripted "album.flac" =
    Some Fixture.album_cue_sheet /\
  num_tracks Fixture.album_cue_sheet > 1 /\
  1 <= 3 < num_tracks Fixture.album_cue_sheet /\
  num_tracks Fixture.album_cue_sheet < CInt.UINT_MOD /\
  exists track,
    @flac_cue_track Fixture.scripted "album.flac" 3 = Some track /\
    flac_vtrack_tnum track = 3.
Proof.
  assert (H1 : @FLAC__metadata_get_cuesheet Fixture.scripted "album.flac" =
               Some Fixture.album_cue_sheet) by reflexivity.
  assert (H2 : num_tracks Fixture.album_cue_sheet > 1) by reflexivity.
  assert (H3 : 1 <= 3 < num_tracks Fixture.album_cue_sheet) by (simpl; lia).
  assert (H4 : num_tracks Fixture.album_cue_sheet < CInt.UINT_MOD) by reflexivity.
  split; [exact H1|]. split; [exact H2|]. split; [exact H3|]. split; [exact H4|].
  exact (@flac_vtrack_tnum_cue_track Fixture.scripted "album.flac"
           Fixture.album_cue_sheet 3 H1 H2 H3 H4).
Defined.

(** ** Format negotiation *)

Module FormatFacts.

Lemma flac_sample_format_cases (si : FLAC__StreamMetadata_StreamInfo) :
  let bps := bits_per_sample si in
  (bps = 8 -> flac_sample_format si = SAMPLE_FORMAT_S8) /\
  (bps = 16 -> flac_sample_format si = SAMPLE_FORMAT_S16) /\
  (bps = 24 -> flac_sample_format si = SAMPLE_FORMAT_S24_P32) /\
  (bps = 32 -> flac_sample_format si = SAMPLE_FORMAT_S32) /\
  (bps <> 8 -> bps <> 16 -> bps <> 24 -> bps <> 32 ->
   flac_sample_format si = SAMPLE_FORMAT_UNDEFINED).
Proof.
  unfold flac_sample_format. cbv zeta.
  repeat apply conj; try (intros ->; reflexivity).
  intros H8 H16 H24 H32.
  destruct (bits_per_sample si) as [|p|p]; try reflexivity.
  do 6 (try destruct p as [p|p|]; try reflexivity; try congruence).
Qed.

Lemma init_checked_format `{Collaborators} rate format nchannels af :
  audio_format_init_checked rate format nchannels = inr af ->
  af_format af = format.
Proof.
  unfold audio_format_init_checked.
  destruct format; try discriminate;
    destruct ((rate =? 0) || (nchannels =? 0)); try discriminate;
    intros [= <-]; reflexivity.
Qed.

End FormatFacts.

(** C1. With a STREAMINFO block captured, [flac_data_get_audio_format]
    sets the sample format of the session from [bits_per_sample]: 8 gives
    S8, 16 gives S16, 24 gives S24_P32 and 32 gives S32; an audio format
    it constructs has that sample format. Every other [bits_per_sample]
    gives the undefined format, and then the function returns false,
    with one warning and the caller's audio format untouched. *)
Theorem flac_data_get_audio_format_sample_format `{Collaborators}
    (w : world) (af : audio_format) :
  have_stream_info (w_data w) = true ->
  let bps := bits_per_sample (stream_info (w_data w)) in
  let r := flac_data_get_audio_format w af in
  let ok := fst (fst r) in
  let w' := snd (fst r) in
  let af' := snd r in
  let format := data_sample_format (w_data w') in
  (bps = 8 -> format = SAMPLE_FORMAT_S8) /\
  (bps = 16 -> format = SAMPLE_FORMAT_S16) /\
  (bps = 24 -> format = SAMPLE_FORMAT_S24_P32) /\
  (bps = 32 -> format = SAMPLE_FORMAT_S32) /\
  (ok = true -> af_format af' = format) /\
  (bps <> 8 -> bps <> 16 -> bps <> 24 -> bps <> 32 ->
   format = SAMPLE_FORMAT_UNDEFINED /\ ok = false /\ af' = af /\
   exists message, w_trace w' = (w_trace w ++ [Warning message])%list).
Proof.
  intros Hsi. cbv zeta.
  destruct (FormatFacts.flac_sample_format_cases (stream_info (w_data w)))
    as (H8 & H16 & H24 & H32 & Hother).
  assert (Hfmt : data_sample_format
                   (w_data (snd (fst (flac_data_get_audio_format w af)))) =
                 flac_sample_format (stream_info (w_data w))).
  { unfold flac_data_get_audio_format. rewrite Hsi. simpl.
    destruct (audio_format_init_checked _ _ _); reflexivity. }
  rewrite Hfmt. repeat apply conj; try assumption.
  - unfold flac_data_get_audio_format. rewrite Hsi. simpl.
    destruct (audio_format_init_checked _ _ _) as [message|af'] eqn:Hinit;
      simpl; [discriminate|].
    intros _. now apply FormatFacts.init_checked_format in Hinit.
  - intros N8 N16 N24 N32. specialize (Hother N8 N16 N24 N32).
    split; [assumption|].
    unfold flac_data_get_audio_format. rewrite Hsi. simpl. rewrite Hother.
    simpl. repeat split. eexists. reflexivity.
Qed.

Lemma flac_data_get_audio_format_sample_format_witness :
  let captured si :=
    @flac_metadata_common_cb Fixture.scripted
      (FLAC__METADATA_TYPE_STREAMINFO si) (Fixture.start []) in
  let negotiate si :=
    flac_data_get_audio_format (captured si) Fixture.no_audio_format in
  have_stream_info (w_data (captured Fixture.hires_stream_info)) = true /\
  data_sample_format (w_data (snd (fst (negotiate Fixture.hires_stream_info)))) =
    SAMPLE_FORMAT_S24_P32 /\
  have_stream_info (w_data (captured Fixture.odd_stream_info)) = true /\
  fst (fst (negotiate Fixture.odd_stream_info)) = false.
Proof.
  cbv zeta. split; [reflexivity|]. split; [|split; [reflexivity|]].
  - destruct (@flac_data_get_audio_format_sample_format Fixture.scripted
                (@flac_metadata_common_cb Fixture.scripted
                   (FLAC__METADATA_TYPE_STREAMINFO Fixture.hires_stream_info)
                   (Fixture.start []))
                Fixture.no_audio_format eq_refl) as (_ & _ & H24 & _).
    apply H24. reflexivity.
  - destruct (@flac_data_get_audio_format_sample_format Fixture.scripted
                (@flac_metadata_common_cb Fixture.scripted
                   (FLAC__METADATA_TYPE_STREAMINFO Fixture.odd_stream_info)
                   (Fixture.start []))
                Fixture.no_audio_format eq_refl) as (_ & _ & _ & _ & _ & Hother).
    destruct Hother as (_ & Hfail & _); try discriminate. exact Hfail.
Defined.

(** C7. Without a captured STREAMINFO block [flac_data_get_audio_format]
    returns false; it constructs no audio format (the caller's is left as
    it was), leaves the session and the decoder alone and logs one
    warning. *)
Theorem flac_data_get_audio_format_no_stream_info `{Collaborators}
    (w : world) (af : audio_format) :
  have_stream_info (w_data w) = false ->
  let r := flac_data_get_audio_format w af in
  fst (fst r) = false /\
  snd r = af /\
  w_data (snd (fst r)) = w_data w /\
  w_decoder (snd (fst r)) = w_decoder w /\
  w_trace (snd (fst r)) =
    (w_trace w ++ [Warning "no STREAMINFO packet found"])%list.
Proof.
  intros Hsi. cbv zeta. unfold flac_data_get_audio_format. rewrite Hsi.
  simpl. repeat split.
Qed.

Lemma flac_data_get_audio_format_no_stream_info_witness :
  have_stream_info (w_data (Fixture.start [])) = false /\
  fst (fst (flac_data_get_audio_format (Fixture.start [])
                                       Fixture.no_audio_format)) = false.
Proof.
  split; [reflexivity|].
  exact (proj1 (@flac_data_get_audio_format_no_stream_info Fixture.scripted
                  (Fixture.start []) Fixture.no_audio_format eq_refl)).
Defined.

(** ** Metadata blocks *)

Module MetadataFacts.

Lemma other_block `{Collaborators} (w : world) (b : FLAC__StreamMetadata) :
  is_stream_info b = false ->
  stream_info (w_data (flac_metadata_common_cb b w)) = stream_info (w_data w) /\
  have_stream_info (w_data (flac_metadata_common_cb b w)) =
    have_stream_info (w_data w).
Proof.
  intros Hb. destruct b; try discriminate Hb; try (split; reflexivity).
  simpl. destruct (flac_parse_replay_gain comment); simpl;
    destruct (data_tag (w_data w)); split; reflexivity.
Qed.

Lemma process_blocks_last `{Collaborators} (blocks : list FLAC__StreamMetadata) :
  forall w,
    stream_info (w_data (process_blocks w blocks)) =
      last_stream_info (stream_info (w_data w)) blocks.
Proof.
  unfold process_blocks.
  induction blocks as [|b blocks IH]; intros w; [reflexivity|].
  simpl fold_left. rewrite IH.
  destruct (is_stream_info b) eqn:Hb.
  - destruct b; try discriminate Hb. reflexivity.
  - destruct (other_block w b Hb) as [-> _].
    destruct b; try discriminate Hb; reflexivity.
Qed.

End MetadataFacts.

(** C2, as the code has it. A STREAMINFO block is stored in the session
    whenever one is processed, whether or not one was captured before,
    and [have_stream_info] is set; a block of any other type leaves the
    stored block and [have_stream_info] as they were. So after a sequence
    of blocks the session holds the last STREAMINFO block of the
    sequence. *)
Theorem flac_metadata_stream_info_last_wins `{Collaborators} :
  (forall (w : world) (si : FLAC__StreamMetadata_StreamInfo),
     let w' := flac_metadata_common_cb (FLAC__METADATA_TYPE_STREAMINFO si) w in
     stream_info (w_data w') = si /\ have_stream_info (w_data w') = true) /\
  (forall (w : world) (b : FLAC__StreamMetadata),
     is_stream_info b = false ->
     stream_info (w_data (flac_metadata_common_cb b w)) = stream_info (w_data w) /\
     have_stream_info (w_data (flac_metadata_common_cb b w)) =
       have_stream_info (w_data w)) /\
  (forall (w : world) (blocks : list FLAC__StreamMetadata),
     stream_info (w_data (process_blocks w blocks)) =
       last_stream_info (stream_info (w_data w)) blocks).
Proof.
  split; [|split].
  - intros w si. split; reflexivity.
  - intros w b Hb. now apply MetadataFacts.other_block.
  - intros w blocks. apply MetadataFacts.process_blocks_last.
Qed.

Lemma flac_metadata_stream_info_last_wins_witness :
  let w := @flac_metadata_common_cb Fixture.scripted
             (FLAC__METADATA_TYPE_STREAMINFO Fixture.cd_stream_info)
             (Fixture.start []) in
  @is_stream_info Fixture.scripted FLAC__METADATA_TYPE_PADDING = false /\
  stream_info (w_data (flac_metadata_common_cb FLAC__METADATA_TYPE_PADDING w)) =
    Fixture.cd_stream_info.
Proof.
  cbv zeta. split; [reflexivity|].
  destruct (@flac_metadata_stream_info_last_wins Fixture.scripted)
    as (_ & Hother & _).
  destruct (Hother (@flac_metadata_common_cb Fixture.scripted
                      (FLAC__METADATA_TYPE_STREAMINFO Fixture.cd_stream_info)
                      (Fixture.start []))
                   FLAC__METADATA_TYPE_PADDING eq_refl) as [Hsame _].
  rewrite Hsame. reflexivity.
Defined.

(** C2 as stated fails: a second STREAMINFO block replaces the one
    captured first. *)
Lemma flac_metadata_second_stream_info_counterexample :
  let w1 := @flac_metadata_common_cb Fixture.scripted
              (FLAC__METADATA_TYPE_STREAMINFO Fixture.cd_stream_info)
              (Fixture.start []) in
  let w2 := flac_metadata_common_cb
              (FLAC__METADATA_TYPE_STREAMINFO Fixture.hires_stream_info) w1 in
  have_stream_info (w_data w1) = true /\
  stream_info (w_data w1) = Fixture.cd_stream_info /\
  stream_info (w_data w2) = Fixture.hires_stream_info /\
  stream_info (w_data w2) <> stream_info (w_data w1).
Proof. cbv zeta. repeat split. discriminate. Qed.

(** ** Decode errors *)

(** C6. With the command Stop pending at the decoder,
    [flac_error_common_cb] returns at once and the world is as before: no
    diagnostic. Otherwise it logs exactly one warning, which has the
    name of the plugin in it and is chosen by the status: lost sync, bad
    header, crc mismatch, and unknown error for what is left. The
    function returns nothing to the decoding library, and in both cases
    the session and the decoder are as before. *)
Theorem flac_error_common_cb_spec `{Collaborators} (plugin : string)
    (status : FLAC__StreamDecoderErrorStatus) (w : world) :
  let w' := flac_error_common_cb plugin status w in
  w_data w' = w_data w /\
  w_decoder w' = w_decoder w /\
  (decoder_get_command (w_decoder w) = DECODE_COMMAND_STOP -> w' = w) /\
  (decoder_get_command (w_decoder w) <> DECODE_COMMAND_STOP ->
   exists message,
     w_trace w' = (w_trace w ++ [Warning message])%list /\
     (exists before after, message = before ++ plugin ++ after) /\
     (status = FLAC__STREAM_DECODER_ERROR_STATUS_LOST_SYNC ->
      message = plugin ++ " lost sync" ++ nl) /\
     (status = FLAC__STREAM_DECODER_ERROR_STATUS_BAD_HEADER ->
      message = "bad " ++ plugin ++ " header" ++ nl) /\
     (status = FLAC__STREAM_DECODER_ERROR_STATUS_FRAME_CRC_MISMATCH ->
      message = plugin ++ " crc mismatch" ++ nl) /\
     (status = FLAC__STREAM_DECODER_ERROR_STATUS_UNPARSEABLE_STREAM ->
      message = "unknown " ++ plugin ++ " error" ++ nl)).
Proof.
  cbv zeta. unfold flac_error_common_cb.
  repeat apply conj.
  - destruct (decoder_get_command (w_decoder w)), status; reflexivity.
  - destruct (decoder_get_command (w_decoder w)), status; reflexivity.
  - intros ->. reflexivity.
  - intros Hcmd.
    destruct status.
    + exists (plugin ++ " lost sync" ++ nl).
      repeat apply conj; try discriminate; try reflexivity.
      * destruct (decoder_get_command (w_decoder w)); try reflexivity; contradiction.
      * exists EmptyString, (" lost sync" ++ nl). reflexivity.
    + exists ("bad " ++ plugin ++ " header" ++ nl).
      repeat apply conj; try discriminate; try reflexivity.
      * destruct (decoder_get_command (w_decoder w)); try reflexivity; contradiction.
      * exists "bad ", (" header" ++ nl). reflexivity.
    + exists (plugin ++ " crc mismatch" ++ nl).
      repeat apply conj; try discriminate; try reflexivity.
      * destruct (decoder_get_command (w_decoder w)); try reflexivity; contradiction.
      * exists EmptyString, (" crc mismatch" ++ nl). reflexivity.
    + exists ("unknown " ++ plugin ++ " error" ++ nl).
      repeat apply conj; try discriminate; try reflexivity.
      * destruct (decoder_get_command (w_decoder w)); try reflexivity; contradiction.
      * exists "unknown ", (" error" ++ nl). reflexivity.
Qed.

Lemma flac_error_common_cb_spec_witness :
  @decoder_get_command Fixture.scripted
    (w_decoder (Fixture.start [DECODE_COMMAND_STOP])) = DECODE_COMMAND_STOP /\
  flac_error_common_cb "flac" FLAC__STREAM_DECODER_ERROR_STATUS_LOST_SYNC
                       (Fixture.start [DECODE_COMMAND_STOP]) =
    Fixture.start [DECODE_COMMAND_STOP] /\
  w_trace (flac_error_common_cb "flac"
             FLAC__STREAM_DECODER_ERROR_STATUS_BAD_HEADER
             (Fixture.start [DECODE_COMMAND_SEEK])) =
    [Warning ("bad flac header" ++ nl)].
Proof.
  split; [reflexivity|]. split.
  - destruct (@flac_error_common_cb_spec Fixture.scripted "flac"
                FLAC__STREAM_DECODER_ERROR_STATUS_LOST_SYNC
                (Fixture.start [DECODE_COMMAND_STOP])) as (_ & _ & Hstop & _).
    apply Hstop. reflexivity.
  - destruct (@flac_error_common_cb_spec Fixture.scripted "flac"
                FLAC__STREAM_DECODER_ERROR_STATUS_BAD_HEADER
                (Fixture.start [DECODE_COMMAND_SEEK])) as (_ & _ & _ & Hlog).
    destruct Hlog as (message & Htrace & _ & _ & Hbad & _); [discriminate|].
    rewrite Htrace, (Hbad eq_refl). reflexivity.
Defined.

(** ** Frame delivery *)

Module WriteFacts.
Import CInt.

(** For a delivery given in figures, the divisor is found by evaluation. *)
Ltac computable_by_evaluation :=
  vm_compute; intros _ Hz; discriminate Hz.

Lemma bit_rate_computable (nbytes : Z) (h : FLAC__FrameHeader) :
  computable nbytes h ->
  exists bit_rate,
    bit_rate_of nbytes h = Some bit_rate /\
    (nbytes > 0 ->
     bit_rate = to_uint (to_uint64 (nbytes * 8 * fh_sample_rate h) /
                         to_uint (1000 * fh_blocksize h))) /\
    (nbytes <= 0 -> bit_rate = 0).
Proof.
  intros Hc. unfold bit_rate_of, computable in *.
  destruct (nbytes >? 0) eqn:Hn.
  - assert (Hpos : nbytes > 0) by lia. specialize (Hc Hpos).
    unfold udiv. destruct (uint_mul 1000 (fh_blocksize h) =? 0) eqn:Hz; [lia|].
    eexists. split; [reflexivity|]. split; [|lia].
    intros _. now rewrite CIntFacts.uint64_mul_assoc.
  - exists 0. split; [reflexivity|]. split; [lia|reflexivity].
Qed.

(** What one call of [flac_common_write] does, in one place. *)
Lemma flac_common_write_inv `{Collaborators} (w : world) (frame : FLAC__Frame)
    (buf : list (list Z)) (nbytes : Z) :
  computable nbytes (header frame) ->
  exists bit_rate st w',
    bit_rate_of nbytes (header frame) = Some bit_rate /\
    flac_common_write w frame buf nbytes = Some (st, w') /\
    let call := decoder_data (w_decoder w) (chunk_of w frame buf)
                             (buffer_size_of w frame) bit_rate in
    (st = FLAC__STREAM_DECODER_WRITE_STATUS_ABORT <->
     fst call = DECODE_COMMAND_STOP) /\
    w_decoder w' = snd call /\
    w_trace w' = (w_trace w ++ [DecoderData (chunk_of w frame buf)
                                            (buffer_size_of w frame) bit_rate])%list /\
    next_frame (w_data w') =
      uint64_add (next_frame (w_data w)) (fh_blocksize (header frame)).
Proof.
  intros Hc. destruct (bit_rate_computable _ _ Hc) as (bit_rate & Hbr & _).
  exists bit_rate. unfold flac_common_write. rewrite Hbr.
  unfold chunk_of, buffer_size_of. simpl.
  destruct (decoder_data _ _ _ _) as [cmd dc].
  destruct cmd; eexists; eexists; (split; [reflexivity|]);
    (split; [reflexivity|]); simpl; repeat split; intros; congruence.
Qed.

Lemma deliver_all_next_frame `{Collaborators} (ds : list delivery) :
  forall w,
    Forall (fun d => computable (dl_nbytes d) (header (dl_frame d))) ds ->
    exists sts w',
      deliver_all w ds = Some (sts, w') /\
      List.length sts = List.length ds /\
      uint64_add (next_frame (w_data w')) 0 =
        uint64_add (next_frame (w_data w)) (total_blocksize ds).
Proof.
  induction ds as [|d ds IH]; intros w Hds.
  - exists [], w. simpl. auto.
  - inversion Hds as [|? ? Hd Hrest]; subst.
    destruct (flac_common_write_inv w (dl_frame d) (dl_buf d) (dl_nbytes d) Hd)
      as (br & st & w1 & _ & Hw & _ & _ & _ & Hnext).
    destruct (IH w1 Hrest) as (sts & w' & Hrun & Hlen & Hsum).
    exists (st :: sts), w'. simpl. rewrite Hw, Hrun.
    split; [reflexivity|]. split; [now rewrite Hlen|].
    rewrite Hsum, Hnext. apply CIntFacts.uint64_add_assoc.
Qed.

Lemma deliver_all_in_range `{Collaborators} (ds : list delivery) :
  forall w sts w',
    0 <= next_frame (w_data w) < UINT64_MOD ->
    deliver_all w ds = Some (sts, w') ->
    0 <= next_frame (w_data w') < UINT64_MOD.
Proof.
  induction ds as [|d ds IH]; intros w sts w' Hrange Hrun.
  - simpl in Hrun. now inversion Hrun; subst.
  - simpl in Hrun.
    destruct (flac_common_write w (dl_frame d) (dl_buf d) (dl_nbytes d))
      as [[st w1]|] eqn:Hw; [|discriminate].
    destruct (deliver_all w1 ds) as [[sts1 w2]|] eqn:Hrest; [|discriminate].
    inversion Hrun; subst. apply (IH w1 sts1 w'); [|assumption].
    unfold flac_common_write in Hw.
    destruct (bit_rate_of _ _); [|discriminate].
    destruct (decoder_data _ _ _ _) as [cmd dc].
    assert (Hmod : 0 <= uint64_add (next_frame (w_data w))
                                   (fh_blocksize (header (dl_frame d))) < UINT64_MOD)
      by (apply Z.mod_pos_bound; reflexivity).
    destruct cmd; inversion Hw; subst; simpl; exact Hmod.
Qed.

Lemma total_blocksize_nonneg `{Collaborators} (ds : list delivery) :
  Forall (fun d => 0 <= blocksize_of d) ds -> 0 <= total_blocksize ds.
Proof.
  induction 1 as [|d ds Hd _ IH]; simpl; [lia|]. lia.
Qed.

End WriteFacts.

(** C3, as the code has it. After the deliveries [ds], whatever the
    decoder answered to each of them, [next_frame] is its first value
    plus the block sizes of [ds], in the 64 bit arithmetic of its type:
    reduced modulo 2^64, and so the plain sum whenever that is below
    2^64. The deliveries are those whose bit rate can be computed. *)
Theorem next_frame_after_deliveries `{Collaborators} (w : world)
    (ds : list delivery) :
  0 <= next_frame (w_data w) < CInt.UINT64_MOD ->
  Forall (fun d => computable (dl_nbytes d) (header (dl_frame d))) ds ->
  exists sts w',
    deliver_all w ds = Some (sts, w') /\
    List.length sts = List.length ds /\
    next_frame (w_data w') =
      (next_frame (w_data w) + total_blocksize ds) mod 2 ^ 64 /\
    (Forall (fun d => 0 <= blocksize_of d) ds ->
     next_frame (w_data w) + total_blocksize ds < 2 ^ 64 ->
     next_frame (w_data w') = next_frame (w_data w) + total_blocksize ds).
Proof.
  intros Hrange Hds.
  destruct (WriteFacts.deliver_all_next_frame ds w Hds)
    as (sts & w' & Hrun & Hlen & Hsum).
  pose proof (WriteFacts.deliver_all_in_range ds w sts w' Hrange Hrun) as Hrange'.
  assert (Hnext : next_frame (w_data w') =
                  (next_frame (w_data w) + total_blocksize ds) mod 2 ^ 64).
  { unfold CInt.uint64_add in Hsum. rewrite Z.add_0_r in Hsum.
    rewrite CIntFacts.to_uint64_small in Hsum by assumption. exact Hsum. }
  exists sts, w'. repeat apply conj; try assumption.
  intros Hpos Hfit. rewrite Hnext. apply Z.mod_small.
  pose proof (WriteFacts.total_blocksize_nonneg ds Hpos). lia.
Qed.

Lemma next_frame_after_deliveries_witness :
  let w := Fixture.start
             [DECODE_COMMAND_SEEK; DECODE_COMMAND_STOP; DECODE_COMMAND_START] in
  let ds := [Fixture.delivery_of 4096 0; Fixture.delivery_of 4096 9000;
             Fixture.delivery_of 1152 2500] in
  0 <= next_frame (w_data w) < CInt.UINT64_MOD /\
  Forall (fun d => computable (dl_nbytes d) (header (dl_frame d))) ds /\
  exists sts w',
    deliver_all w ds = Some (sts, w') /\ next_frame (w_data w') = 9344.
Proof.
  cbv zeta.
  assert (Hrange : 0 <= next_frame (w_data (Fixture.start
            [DECODE_COMMAND_SEEK; DECODE_COMMAND_STOP; DECODE_COMMAND_START]))
            < CInt.UINT64_MOD) by (vm_compute; split; congruence).
  assert (Hds : Forall (fun d => computable (dl_nbytes d) (header (dl_frame d)))
            [Fixture.delivery_of 4096 0; Fixture.delivery_of 4096 9000;
             Fixture.delivery_of 1152 2500])
    by (repeat constructor; WriteFacts.computable_by_evaluation).
  split; [exact Hrange|]. split; [exact Hds|].
  destruct (@next_frame_after_deliveries Fixture.scripted _ _ Hrange Hds)
    as (sts & w' & Hrun & _ & _ & Hsum).
  exists sts, w'. split; [exact Hrun|].
  rewrite Hsum; [reflexivity | | reflexivity].
  repeat constructor; vm_compute; congruence.
Defined.

(** C3 as stated fails where the counter wraps: at [2^64 - 1] a frame of
    one sample takes [next_frame] to 0. *)
Lemma next_frame_wraps_counterexample :
  let w := Fixture.late [] in
  next_frame (w_data w) = 18446744073709551615 /\
  exists sts w',
    deliver_all w [Fixture.delivery_of 1 0] = Some (sts, w') /\
    next_frame (w_data w') = 0 /\
    next_frame (w_data w') <> next_frame (w_data w) + 1.
Proof.
  cbv zeta. split; [reflexivity|].
  eexists. eexists. split; [reflexivity|]. split; [reflexivity|].
  vm_compute. discriminate.
Qed.

(** C4. A delivery returns the abort status exactly when the command the
    decoder answered with is Stop; for None, Start and Seek it returns
    the continue status. *)
Theorem flac_common_write_status `{Collaborators} (w : world)
    (frame : FLAC__Frame) (buf : list (list Z)) (nbytes : Z) :
  computable nbytes (header frame) ->
  exists bit_rate st w',
    bit_rate_of nbytes (header frame) = Some bit_rate /\
    flac_common_write w frame buf nbytes = Some (st, w') /\
    let cmd := fst (decoder_data (w_decoder w) (chunk_of w frame buf)
                                 (buffer_size_of w frame) bit_rate) in
    (st = FLAC__STREAM_DECODER_WRITE_STATUS_ABORT <-> cmd = DECODE_COMMAND_STOP) /\
    (st = FLAC__STREAM_DECODER_WRITE_STATUS_CONTINUE <->
     cmd = DECODE_COMMAND_NONE \/ cmd = DECODE_COMMAND_START \/
     cmd = DECODE_COMMAND_SEEK).
Proof.
  intros Hc.
  destruct (WriteFacts.flac_common_write_inv w frame buf nbytes Hc)
    as (bit_rate & st & w' & Hbr & Hw & Habort & _).
  exists bit_rate, st, w'. split; [assumption|]. split; [assumption|].
  cbv zeta. split; [exact Habort|].
  destruct Habort as [Hto Hfrom].
  destruct (fst (decoder_data _ _ _ _)) eqn:Hcmd; destruct st;
    split; intros Hx; auto; try discriminate Hx;
    try (destruct Hx as [Hx | [Hx | Hx]]; discriminate Hx);
    try (specialize (Hto eq_refl); discriminate Hto);
    try (specialize (Hfrom eq_refl); discriminate Hfrom).
Qed.

Lemma flac_common_write_status_witness :
  computable 9000 (header (Fixture.frame_of 4096 44100 2)) /\
  (exists w',
     flac_common_write (Fixture.start [DECODE_COMMAND_STOP])
                       (Fixture.frame_of 4096 44100 2) [] 9000 =
       Some (FLAC__STREAM_DECODER_WRITE_STATUS_ABORT, w')).
Proof.
  assert (Hc : computable 9000 (header (Fixture.frame_of 4096 44100 2)))
    by WriteFacts.computable_by_evaluation.
  split; [exact Hc|].
  destruct (@flac_common_write_status Fixture.scripted
              (Fixture.start [DECODE_COMMAND_STOP])
              (Fixture.frame_of 4096 44100 2) [] 9000 Hc)
    as (bit_rate & st & w' & _ & Hw & Habort & _).
  exists w'. rewrite Hw.
  assert (Hst : st = FLAC__STREAM_DECODER_WRITE_STATUS_ABORT)
    by (apply Habort; reflexivity).
  now rewrite Hst.
Defined.

(** C5, as the code has it. The bit rate handed to [decoder_data] is 0
    when [nbytes] is 0. When [nbytes] is positive it is the quotient of
    [nbytes * 8 * sample_rate], reduced modulo 2^64, by
    [1000 * blocksize], reduced modulo 2^32, and the quotient reduced
    modulo 2^32. That is the floor of
    [nbytes * 8 * sample_rate / (1000 * blocksize)] whenever the product
    is below 2^64, the divisor below 2^32 and the quotient below 2^32;
    for 44100 bytes at 44100 Hz in a block of 4096 samples it is
    [44100 * 8 * 44100 / (1000 * 4096)], which is 3798. *)
Theorem bit_rate_passed_to_decoder `{Collaborators} (w : world)
    (frame : FLAC__Frame) (buf : list (list Z)) (nbytes : Z) :
  let rate := fh_sample_rate (header frame) in
  let blocksize := fh_blocksize (header frame) in
  computable nbytes (header frame) ->
  exists bit_rate st w',
    flac_common_write w frame buf nbytes = Some (st, w') /\
    w_trace w' = (w_trace w ++ [DecoderData (chunk_of w frame buf)
                                            (buffer_size_of w frame) bit_rate])%list /\
    (nbytes = 0 -> bit_rate = 0) /\
    (nbytes > 0 ->
     bit_rate = ((nbytes * 8 * rate) mod 2 ^ 64 /
                 ((1000 * blocksize) mod 2 ^ 32)) mod 2 ^ 32) /\
    (nbytes > 0 -> 0 <= rate ->
     nbytes * 8 * rate < 2 ^ 64 ->
     0 < 1000 * blocksize < 2 ^ 32 ->
     nbytes * 8 * rate / (1000 * blocksize) < 2 ^ 32 ->
     bit_rate = nbytes * 8 * rate / (1000 * blocksize)) /\
    (nbytes = 44100 -> rate = 44100 -> blocksize = 4096 ->
     bit_rate = 44100 * 8 * 44100 / (1000 * 4096) /\ bit_rate = 3798).
Proof.
  cbv zeta. intros Hc.
  destruct (WriteFacts.flac_common_write_inv w frame buf nbytes Hc)
    as (bit_rate & st & w' & Hbr & Hw & _ & _ & Htrace & _).
  destruct (WriteFacts.bit_rate_computable _ _ Hc)
    as (bit_rate' & Hbr' & Hpos & Hzero).
  assert (bit_rate' = bit_rate) by congruence. subst bit_rate'.
  exists bit_rate, st, w'.
  split; [assumption|]. split; [assumption|].
  split; [intros ->; apply Hzero; lia|].
  split; [exact Hpos|].
  split.
  - intros Hn Hrate Hprod Hdiv Hquot. rewrite (Hpos Hn).
    unfold CInt.to_uint, CInt.to_uint64, CInt.UINT_MOD, CInt.UINT64_MOD.
    rewrite (Z.mod_small (nbytes * 8 * _)) by nia.
    rewrite (Z.mod_small (1000 * _)) by lia.
    apply Z.mod_small. split; [apply Z.div_pos; nia | assumption].
  - intros Hn Hrate Hbs. rewrite Hpos by lia. rewrite Hn, Hrate, Hbs.
    split; reflexivity.
Qed.

Lemma bit_rate_passed_to_decoder_witness :
  computable 44100 (header (Fixture.frame_of 4096 44100 2)) /\
  exists st w',
    flac_common_write (Fixture.start []) (Fixture.frame_of 4096 44100 2)
                      [] 44100 = Some (st, w') /\
    w_trace w' = [@DecoderData Fixture.scripted tt 0 3798].
Proof.
  assert (Hc : computable 44100 (header (Fixture.frame_of 4096 44100 2)))
    by WriteFacts.computable_by_evaluation.
  split; [exact Hc|].
  destruct (@bit_rate_passed_to_decoder Fixture.scripted (Fixture.start [])
              (Fixture.frame_of 4096 44100 2) [] 44100 Hc)
    as (bit_rate & st & w' & Hw & Htrace & _ & _ & _ & Hex).
  exists st, w'. split; [exact Hw|].
  destruct (Hex eq_refl eq_refl eq_refl) as [_ Hval].
  rewrite Htrace, Hval. reflexivity.
Defined.

(** C5 as stated fails where the quotient does not fit 32 bits: for
    12500000 bytes at 44100 Hz in a block of one sample the formula
    gives 4410000000 and the decoder is handed 115032704. *)
Lemma bit_rate_truncated_counterexample :
  12500000 * 8 * 44100 / (1000 * 1) = 4410000000 /\
  exists st w',
    flac_common_write (Fixture.start []) (Fixture.frame_of 1 44100 2)
                      [] 12500000 = Some (st, w') /\
    w_trace w' = [@DecoderData Fixture.scripted tt 0 115032704] /\
    115032704 <> 12500000 * 8 * 44100 / (1000 * 1).
Proof.
  split; [reflexivity|].
  eexists. eexists. split; [reflexivity|]. split; [reflexivity|].
  vm_compute. discriminate.
Qed.

(** * Further properties of the code *)

(** ** Sequences of metadata blocks *)

Module BlocksFacts.

Lemma process_blocks_cons `{Collaborators} (w : world)
    (b : FLAC__StreamMetadata) (blocks : list FLAC__StreamMetadata) :
  process_blocks w (b :: blocks) =
    process_blocks (flac_metadata_common_cb b w) blocks.
Proof. reflexivity. Qed.

Lemma option_map_id {A : Type} (o : option A) : option_map (fun a => a) o = o.
Proof. destruct o; reflexivity. Qed.

(** What one block does to the parts of the world. *)
Lemma one_block `{Collaborators} (b : FLAC__StreamMetadata) (w : world) :
  let w' := flac_metadata_common_cb b w in
  w_trace w' = (w_trace w ++ map ReplayGain (replay_gains [b]))%list /\
  w_decoder w' = fold_left decoder_replay_gain (replay_gains [b]) (w_decoder w) /\
  data_tag (w_data w') =
    option_map (fold_left flac_vorbis_comments_to_tag (comments_of [b]))
               (data_tag (w_data w)) /\
  playback_state (w_data w') = playback_state (w_data w) /\
  have_stream_info (w_data w') = have_stream_info (w_data w) || is_stream_info b.
Proof.
  cbv zeta.
  destruct b; simpl;
    try (rewrite app_nil_r, orb_false_r;
         repeat split; symmetry; apply option_map_id).
  - rewrite app_nil_r, orb_true_r.
    repeat split; symmetry; apply option_map_id.
  - rewrite orb_false_r.
    destruct (flac_parse_replay_gain comment) as [rgi|]; simpl;
      destruct (data_tag (w_data w)) eqn:Htag; simpl;
      rewrite ?Htag, ?app_nil_r; repeat split.
Qed.

(** A sequence of blocks, seen from the playback side of the session. *)
Lemma blocks_invariant `{Collaborators} (blocks : list FLAC__StreamMetadata) :
  forall w,
    playback_state (w_data (process_blocks w blocks)) =
      playback_state (w_data w) /\
    have_stream_info (w_data (process_blocks w blocks)) =
      have_stream_info (w_data w) || existsb is_stream_info blocks.
Proof.
  induction blocks as [|b blocks IH]; intros w.
  - simpl. now rewrite orb_false_r.
  - rewrite process_blocks_cons.
    destruct (IH (flac_metadata_common_cb b w)) as [Hplay Hhave].
    destruct (one_block b w) as (_ & _ & _ & Hp1 & Hh1).
    rewrite Hplay, Hhave, Hp1, Hh1. simpl existsb.
    now rewrite orb_assoc.
Qed.

(** Negotiation leaves the frame counters alone. *)
Lemma negotiation_counters `{Collaborators} (w : world) (af : audio_format) :
  let w' := snd (fst (flac_data_get_audio_format w af)) in
  first_frame (w_data w') = first_frame (w_data w) /\
  next_frame (w_data w') = next_frame (w_data w) /\
  position (w_data w') = position (w_data w).
Proof.
  cbv zeta. unfold flac_data_get_audio_format.
  destruct (have_stream_info (w_data w)); simpl;
    [destruct (audio_format_init_checked _ _ _)|]; repeat split.
Qed.

End BlocksFacts.

(** X1. Over a sequence of metadata blocks the decoder is told the replay
    gains that parse from the comment blocks, each once and in the order
    of the stream, and the trace grows by these notifications only: the
    metadata callback logs no warning and sends no audio data. *)
Theorem process_blocks_replay_gains `{Collaborators} (w : world)
    (blocks : list FLAC__StreamMetadata) :
  w_trace (process_blocks w blocks) =
    (w_trace w ++ map ReplayGain (replay_gains blocks))%list /\
  w_decoder (process_blocks w blocks) =
    fold_left decoder_replay_gain (replay_gains blocks) (w_decoder w).
Proof.
  revert w. induction blocks as [|b blocks IH]; intros w.
  - simpl. now rewrite app_nil_r.
  - rewrite BlocksFacts.process_blocks_cons.
    destruct (IH (flac_metadata_common_cb b w)) as [Htrace Hdec].
    destruct (BlocksFacts.one_block b w) as (Ht1 & Hd1 & _).
    rewrite Htrace, Hdec, Ht1, Hd1.
    assert (Hsplit : replay_gains (b :: blocks) =
                     (replay_gains [b] ++ replay_gains blocks)%list).
    { destruct b; try reflexivity. simpl.
      destruct (flac_parse_replay_gain comment); reflexivity. }
    rewrite Hsplit, map_app, fold_left_app, <- app_assoc. split; reflexivity.
Qed.

(** X2. The destination tag of a session is never created and never
    dropped by metadata blocks: a session without tag stays without, and
    a session with a tag has the comment blocks of the sequence merged
    into it one after the other, in the order of the stream. *)
Theorem process_blocks_tag `{Collaborators} (w : world)
    (blocks : list FLAC__StreamMetadata) :
  data_tag (w_data (process_blocks w blocks)) =
    option_map (fold_left flac_vorbis_comments_to_tag (comments_of blocks))
               (data_tag (w_data w)).
Proof.
  revert w. induction blocks as [|b blocks IH]; intros w.
  - simpl. symmetry. apply BlocksFacts.option_map_id.
  - rewrite BlocksFacts.process_blocks_cons, IH.
    destruct (BlocksFacts.one_block b w) as (_ & _ & Htag & _).
    rewrite Htag.
    assert (Hsplit : comments_of (b :: blocks) =
                     (comments_of [b] ++ comments_of blocks)%list)
      by (destruct b; reflexivity).
    rewrite Hsplit. destruct (data_tag (w_data w)); simpl; [|reflexivity].
    now rewrite fold_left_app.
Qed.

(** X3. Metadata blocks never touch what frames are converted with: the
    buffer, the sample format and frame size of the last negotiation and
    the frame counters stay as they are, also when a new STREAMINFO block
    arrives. [have_stream_info] is never cleared: after a sequence of
    blocks it holds exactly when it held before or the sequence has a
    STREAMINFO block. *)
Theorem process_blocks_keeps_playback_state `{Collaborators} (w : world)
    (blocks : list FLAC__StreamMetadata) :
  playback_state (w_data (process_blocks w blocks)) = playback_state (w_data w) /\
  have_stream_info (w_data (process_blocks w blocks)) =
    have_stream_info (w_data w) || existsb is_stream_info blocks.
Proof.
  destruct (BlocksFacts.blocks_invariant blocks w) as [Hplay Hhave].
  split.
  - exact Hplay.
  - rewrite Hhave. reflexivity.
Qed.

(** ** Negotiation, again *)

(** X4. [flac_data_get_audio_format] writes two members of the session
    and no other, the sample format and the frame size; what the metadata
    blocks stored, the buffer, the frame counters and the decoder are as
    before. It succeeds only with a STREAMINFO block captured, and then
    without a word in the log and with the frame size of the format it
    returns cached in the session. When it fails it logs one warning and
    leaves the frame size and the caller's audio format alone. *)
Theorem flac_data_get_audio_format_frame `{Collaborators} (w : world)
    (af : audio_format) :
  let r := flac_data_get_audio_format w af in
  let ok := fst (fst r) in
  let w' := snd (fst r) in
  let af' := snd r in
  metadata_state (w_data w') = metadata_state (w_data w) /\
  buffer (w_data w') = buffer (w_data w) /\
  (first_frame (w_data w'), next_frame (w_data w'), position (w_data w')) =
    (first_frame (w_data w), next_frame (w_data w), position (w_data w)) /\
  w_decoder w' = w_decoder w /\
  (ok = true ->
   have_stream_info (w_data w) = true /\
   w_trace w' = w_trace w /\
   frame_size (w_data w') = audio_format_frame_size af' /\
   af_format af' = data_sample_format (w_data w')) /\
  (ok = false ->
   frame_size (w_data w') = frame_size (w_data w) /\
   af' = af /\
   exists message, w_trace w' = (w_trace w ++ [Warning message])%list).
Proof.
  cbv zeta. unfold flac_data_get_audio_format.
  destruct (have_stream_info (w_data w)) eqn:Hsi; simpl.
  - destruct (audio_format_init_checked _ _ _) as [message|af'] eqn:Hinit; simpl.
    + unfold metadata_state. simpl. rewrite Hsi.
      repeat split; try discriminate. eexists. reflexivity.
    + unfold metadata_state. simpl. rewrite Hsi.
      repeat split; try discriminate.
      now apply FormatFacts.init_checked_format in Hinit.
  - unfold metadata_state. simpl. rewrite Hsi.
    repeat split; try discriminate. eexists. reflexivity.
Qed.

Lemma flac_data_get_audio_format_frame_witness :
  let w := @flac_metadata_common_cb Fixture.scripted
             (FLAC__METADATA_TYPE_STREAMINFO Fixture.cd_stream_info)
             (Fixture.start []) in
  let r := flac_data_get_audio_format w Fixture.no_audio_format in
  fst (fst r) = true /\
  frame_size (w_data (snd (fst r))) = 4 /\
  w_trace (snd (fst r)) = [].
Proof.
  cbv zeta. split; [reflexivity|].
  destruct (@flac_data_get_audio_format_frame Fixture.scripted
              (@flac_metadata_common_cb Fixture.scripted
                 (FLAC__METADATA_TYPE_STREAMINFO Fixture.cd_stream_info)
                 (Fixture.start []))
              Fixture.no_audio_format) as (_ & _ & _ & _ & Hok & _).
  destruct (Hok eq_refl) as (_ & Htrace & Hsize & _).
  split; [rewrite Hsize; reflexivity | rewrite Htrace; reflexivity].
Defined.

(** X5. Negotiating twice is as good as once: a second call returns what
    the first returned, flag and audio format, and leaves the session as
    the first call left it. *)
Theorem flac_data_get_audio_format_idempotent `{Collaborators} (w : world)
    (af : audio_format) :
  let r1 := flac_data_get_audio_format w af in
  let r2 := flac_data_get_audio_format (snd (fst r1)) (snd r1) in
  fst (fst r2) = fst (fst r1) /\
  snd r2 = snd r1 /\
  w_data (snd (fst r2)) = w_data (snd (fst r1)).
Proof.
  cbv zeta.
  assert (Hfirst : forall w0 af0,
    have_stream_info (w_data w0) = true ->
    flac_data_get_audio_format w0 af0 =
      let data := set_sample_format (w_data w0)
                    (flac_sample_format (stream_info (w_data w0))) in
      match audio_format_init_checked (sample_rate (stream_info (w_data w0)))
                                      (flac_sample_format (stream_info (w_data w0)))
                                      (channels (stream_info (w_data w0))) with
      | inl message => (false, g_warning (with_data w0 data) message, af0)
      | inr af' =>
          (true, with_data w0 (set_frame_size data (audio_format_frame_size af')),
           af')
      end).
  { intros w0 af0 Hsi0. unfold flac_data_get_audio_format. now rewrite Hsi0. }
  destruct (have_stream_info (w_data w)) eqn:Hsi.
  - rewrite (Hfirst w af Hsi). cbv zeta.
    destruct (audio_format_init_checked _ _ _) as [message|af'] eqn:Hinit;
      cbn [fst snd]; rewrite Hfirst by exact Hsi;
      cbn -[audio_format_init_checked audio_format_frame_size];
      rewrite Hinit; repeat split.
  - assert (Hnone : forall w0 af0,
      have_stream_info (w_data w0) = false ->
      flac_data_get_audio_format w0 af0 =
        (false, g_warning w0 "no STREAMINFO packet found", af0)).
    { intros w0 af0 Hsi0. unfold flac_data_get_audio_format. now rewrite Hsi0. }
    rewrite (Hnone w af Hsi). cbn [fst snd].
    rewrite Hnone by exact Hsi. repeat split.
Qed.

(** X6. The start of a session: after [flac_data_init], whatever the
    memory held, and any sequence of metadata blocks, negotiation can
    succeed only if a STREAMINFO block was among them, and the sample
    format it leaves in the session is the one of the last STREAMINFO
    block. Without any block it fails. *)
Theorem negotiation_after_init `{Collaborators} (d : flac_data)
    (dc : decoder) (trace : list event)
    (blocks : list FLAC__StreamMetadata) (af : audio_format) :
  let w0 := {| w_data := flac_data_init d; w_decoder := dc; w_trace := trace |} in
  let r := flac_data_get_audio_format (process_blocks w0 blocks) af in
  (existsb is_stream_info blocks = false -> fst (fst r) = false) /\
  (fst (fst r) = true ->
   existsb is_stream_info blocks = true /\
   data_sample_format (w_data (snd (fst r))) =
     flac_sample_format (last_stream_info (stream_info d) blocks)).
Proof.
  cbv zeta.
  set (w0 := {| w_data := flac_data_init d; w_decoder := dc; w_trace := trace |}).
  destruct (BlocksFacts.blocks_invariant blocks w0) as [_ Hhave].
  simpl in Hhave.
  pose proof (MetadataFacts.process_blocks_last blocks w0) as Hlast.
  simpl in Hlast.
  unfold flac_data_get_audio_format. rewrite Hhave.
  destruct (existsb is_stream_info blocks) eqn:Hany; simpl.
  - split; [discriminate|]. intros _. split; [reflexivity|].
    rewrite Hlast.
    destruct (audio_format_init_checked _ _ _); reflexivity.
  - split; [reflexivity | discriminate].
Qed.

Lemma negotiation_after_init_witness :
  let w0 := {| w_data := flac_data_init Fixture.fresh_data;
               w_decoder := @nil decoder_command; w_trace := [] |} in
  let blocks := [@FLAC__METADATA_TYPE_PADDING Fixture.scripted;
                 FLAC__METADATA_TYPE_STREAMINFO Fixture.cd_stream_info] in
  let r := flac_data_get_audio_format (process_blocks w0 blocks)
                                      Fixture.no_audio_format in
  fst (fst r) = true /\
  data_sample_format (w_data (snd (fst r))) = SAMPLE_FORMAT_S16 /\
  fst (fst (flac_data_get_audio_format (process_blocks w0 [])
                                       Fixture.no_audio_format)) = false.
Proof.
  cbv zeta.
  assert (Hok : fst (fst (flac_data_get_audio_format
            (process_blocks
               {| w_data := flac_data_init Fixture.fresh_data;
                  w_decoder := @nil decoder_command; w_trace := [] |}
               [@FLAC__METADATA_TYPE_PADDING Fixture.scripted;
                FLAC__METADATA_TYPE_STREAMINFO Fixture.cd_stream_info])
            Fixture.no_audio_format)) = true) by reflexivity.
  split; [exact Hok|]. split.
  - destruct (@negotiation_after_init Fixture.scripted Fixture.fresh_data
                (@nil decoder_command) []
                [@FLAC__METADATA_TYPE_PADDING Fixture.scripted;
                 FLAC__METADATA_TYPE_STREAMINFO Fixture.cd_stream_info]
                Fixture.no_audio_format) as [_ Hsucc].
    destruct (Hsucc Hok) as [_ Hfmt]. rewrite Hfmt. reflexivity.
  - destruct (@negotiation_after_init Fixture.scripted Fixture.fresh_data
                (@nil decoder_command) [] [] Fixture.no_audio_format)
      as [Hnone _].
    apply Hnone. reflexivity.
Defined.

(** ** Deliveries, again *)

Module DeliveryFacts.
Import CInt.

(** One delivery, seen from the session. *)
Lemma write_session `{Collaborators} (w w' : world) (frame : FLAC__Frame)
    (buf : list (list Z)) (nbytes : Z) (st : FLAC__StreamDecoderWriteStatus) :
  flac_common_write w frame buf nbytes = Some (st, w') ->
  metadata_state (w_data w') = metadata_state (w_data w) /\
  data_sample_format (w_data w') = data_sample_format (w_data w) /\
  frame_size (w_data w') = frame_size (w_data w) /\
  first_frame (w_data w') = first_frame (w_data w) /\
  position (w_data w') = position (w_data w) /\
  buffer (w_data w') = pcm_buffer_get (buffer (w_data w)) (buffer_size_of w frame) /\
  exists chunk bit_rate,
    w_trace w' =
      (w_trace w ++ [DecoderData chunk (buffer_size_of w frame) bit_rate])%list.
Proof.
  unfold flac_common_write.
  destruct (bit_rate_of nbytes (header frame)) as [bit_rate|]; [|discriminate].
  destruct (decoder_data _ _ _ _) as [cmd dc].
  destruct cmd; intros [= <- <-]; unfold metadata_state, buffer_size_of; simpl;
    repeat split; eexists; eexists; reflexivity.
Qed.

Lemma write_undefined `{Collaborators} (w : world) (frame : FLAC__Frame)
    (buf : list (list Z)) (nbytes : Z) :
  flac_common_write w frame buf nbytes = None <->
  nbytes > 0 /\ (1000 * fh_blocksize (header frame)) mod 2 ^ 32 = 0.
Proof.
  unfold flac_common_write, bit_rate_of, udiv, uint_mul, to_uint, UINT_MOD.
  destruct (Z.gtb_spec nbytes 0) as [Hn|Hn].
  - destruct (Z.eqb_spec ((1000 * fh_blocksize (header frame)) mod 2 ^ 32) 0)
      as [Hz|Hz]; cbn [option_map].
    + split; [intros _; lia | reflexivity].
    + destruct (decoder_data _ _ _ _) as [cmd dc].
      split; [destruct cmd; discriminate | lia].
  - destruct (decoder_data _ _ _ _) as [cmd dc].
    split; [destruct cmd; discriminate | lia].
Qed.

(** The divisor [1000 * blocksize] vanishes in 32 bits exactly at the
    multiples of 2^29. *)
Lemma divisor_zero (blocksize : Z) :
  (1000 * blocksize) mod 2 ^ 32 = 0 <-> blocksize mod 2 ^ 29 = 0.
Proof.
  rewrite !Z.mod_divide by lia.
  replace (1000 * blocksize) with (8 * (125 * blocksize)) by lia.
  replace (2 ^ 32) with (8 * 2 ^ 29) by reflexivity.
  rewrite Z.mul_divide_cancel_l by lia.
  split.
  - intros Hdiv. apply Z.gauss with (m := 125); [exact Hdiv | reflexivity].
  - intros Hdiv. now apply Z.divide_mul_r.
Qed.

(** The deliveries of a decode loop leave these two counters alone. *)
Lemma deliver_all_counters `{Collaborators} (ds : list delivery) :
  forall w sts w',
    deliver_all w ds = Some (sts, w') ->
    first_frame (w_data w') = first_frame (w_data w) /\
    position (w_data w') = position (w_data w).
Proof.
  induction ds as [|d ds IH]; intros w sts w' Hrun.
  - simpl in Hrun. injection Hrun as _ <-. split; reflexivity.
  - simpl in Hrun.
    destruct (flac_common_write w (dl_frame d) (dl_buf d) (dl_nbytes d))
      as [[st w1]|] eqn:Hw; [|discriminate].
    destruct (deliver_all w1 ds) as [[sts1 w2]|] eqn:Hrest; [|discriminate].
    injection Hrun as _ <-.
    destruct (write_session w w1 _ _ _ st Hw) as (_ & _ & _ & Hff & Hpos & _).
    destruct (IH w1 sts1 w2 Hrest) as [Hff' Hpos'].
    split; congruence.
Qed.

End DeliveryFacts.

(** X7. Over a sequence of deliveries the decoder is handed one chunk of
    audio data per frame, in order, each of [blocksize * frame_size]
    bytes in 32 bit arithmetic with the frame size the session had at
    the start; nothing else is logged. The deliveries change the frame
    counter and the buffer only: the sample format, the frame size, the
    first frame, the stream position and what the metadata blocks stored
    are as before. *)
Theorem deliver_all_trace `{Collaborators} (ds : list delivery) (w : world) :
  Forall (fun d => computable (dl_nbytes d) (header (dl_frame d))) ds ->
  exists sts w' events,
    deliver_all w ds = Some (sts, w') /\
    w_trace w' = (w_trace w ++ events)%list /\
    Forall2 (delivers (frame_size (w_data w))) events ds /\
    metadata_state (w_data w') = metadata_state (w_data w) /\
    data_sample_format (w_data w') = data_sample_format (w_data w) /\
    frame_size (w_data w') = frame_size (w_data w) /\
    first_frame (w_data w') = first_frame (w_data w) /\
    position (w_data w') = position (w_data w).
Proof.
  revert w. induction ds as [|d ds IH]; intros w Hds.
  - exists [], w, []. simpl. rewrite app_nil_r. repeat split. constructor.
  - inversion Hds as [|? ? Hd Hrest]; subst.
    destruct (WriteFacts.flac_common_write_inv w (dl_frame d) (dl_buf d)
                (dl_nbytes d) Hd) as (br & st & w1 & _ & Hw & _).
    destruct (DeliveryFacts.write_session w w1 _ _ _ st Hw)
      as (Hm1 & Hf1 & Hs1 & Hff1 & Hp1 & _ & chunk & bit_rate & Ht1).
    destruct (IH w1 Hrest)
      as (sts & w' & events & Hrun & Htrace & Hall & Hm & Hf & Hs & Hff & Hp).
    exists (st :: sts), w',
      (DecoderData chunk (buffer_size_of w (dl_frame d)) bit_rate :: events).
    simpl deliver_all. rewrite Hw, Hrun.
    split; [reflexivity|].
    split; [rewrite Htrace, Ht1, <- app_assoc; reflexivity|].
    split.
    { constructor; [exists chunk, bit_rate; reflexivity|].
      now rewrite <- Hs1. }
    repeat split; congruence.
Qed.

Lemma deliver_all_trace_witness :
  let ds := [Fixture.delivery_of 4096 0; Fixture.delivery_of 1152 2500] in
  Forall (fun d => computable (dl_nbytes d) (header (dl_frame d))) ds /\
  exists sts w',
    deliver_all (Fixture.start [DECODE_COMMAND_STOP]) ds = Some (sts, w') /\
    List.length (w_trace w') = 2%nat.
Proof.
  cbv zeta.
  assert (Hds : Forall (fun d => computable (dl_nbytes d) (header (dl_frame d)))
                  [Fixture.delivery_of 4096 0; Fixture.delivery_of 1152 2500])
    by (repeat constructor; WriteFacts.computable_by_evaluation).
  split; [exact Hds|].
  destruct (@deliver_all_trace Fixture.scripted _
              (Fixture.start [DECODE_COMMAND_STOP]) Hds)
    as (sts & w' & events & Hrun & Htrace & Hall & _).
  exists sts, w'. split; [exact Hrun|].
  rewrite Htrace. simpl.
  apply Forall2_length in Hall. exact Hall.
Defined.

(** X8. A delivery has no result, the division for the bit rate being by
    zero, exactly when there are bytes to account for and the block size
    is a multiple of 2^29, zero included. So every frame whose block size
    is between 1 and 2^29 - 1 is delivered, whatever the other figures
    are, and so is every frame delivered with [nbytes = 0]. *)
Theorem flac_common_write_undefined `{Collaborators} (w : world)
    (frame : FLAC__Frame) (buf : list (list Z)) (nbytes : Z) :
  let blocksize := fh_blocksize (header frame) in
  (flac_common_write w frame buf nbytes = None <->
   nbytes > 0 /\ blocksize mod 2 ^ 29 = 0) /\
  (0 < blocksize < 2 ^ 29 ->
   exists st w', flac_common_write w frame buf nbytes = Some (st, w')) /\
  (nbytes = 0 ->
   exists st w', flac_common_write w frame buf nbytes = Some (st, w')).
Proof.
  cbv zeta.
  assert (Hiff : flac_common_write w frame buf nbytes = None <->
                 nbytes > 0 /\ fh_blocksize (header frame) mod 2 ^ 29 = 0).
  { rewrite DeliveryFacts.write_undefined, DeliveryFacts.divisor_zero.
    reflexivity. }
  split; [exact Hiff|]. split.
  - intros Hbs.
    destruct (flac_common_write w frame buf nbytes) as [[st w']|] eqn:Hw;
      [now exists st, w'|].
    destruct (proj1 Hiff eq_refl) as [_ Hz].
    rewrite Z.mod_small in Hz by lia. lia.
  - intros Hn.
    destruct (flac_common_write w frame buf nbytes) as [[st w']|] eqn:Hw;
      [now exists st, w'|].
    destruct (proj1 Hiff eq_refl) as [Hpos _]. lia.
Qed.

Lemma flac_common_write_undefined_witness :
  (0 < fh_blocksize (header (Fixture.frame_of 4096 44100 2)) < 2 ^ 29) /\
  (exists st w',
     flac_common_write (Fixture.start []) (Fixture.frame_of 4096 44100 2)
                       [] 9000 = Some (st, w')) /\
  flac_common_write (Fixture.start []) (Fixture.frame_of 536870912 44100 2)
                    [] 9000 = None.
Proof.
  assert (Hbs : 0 < fh_blocksize (header (Fixture.frame_of 4096 44100 2)) < 2 ^ 29)
    by (simpl; lia).
  split; [exact Hbs|].
  split.
  - destruct (@flac_common_write_undefined Fixture.scripted (Fixture.start [])
                (Fixture.frame_of 4096 44100 2) [] 9000) as (_ & Hsome & _).
    exact (Hsome Hbs).
  - destruct (@flac_common_write_undefined Fixture.scripted (Fixture.start [])
                (Fixture.frame_of 536870912 44100 2) [] 9000) as (Hnone & _).
    apply Hnone. split; reflexivity.
Defined.

(** ** Track names, again *)

Module NameFacts.

Lemma cue_track_inv `{Collaborators} (pathname : string) (tnum : Z)
    (name : string) :
  flac_cue_track pathname tnum = Some name ->
  exists cs,
    FLAC__metadata_get_cuesheet pathname = Some cs /\
    num_tracks cs > 1 /\ 0 < tnum < num_tracks cs /\
    name = "track_" ++ Libc.fmt_03u tnum ++ ".flac".
Proof.
  unfold flac_cue_track.
  destruct (FLAC__metadata_get_cuesheet pathname) as [cs|]; [|discriminate].
  destruct (Z.leb_spec (num_tracks cs) 1); [discriminate|].
  destruct (Z.gtb_spec tnum 0); [|discriminate].
  destruct (Z.ltb_spec tnum (num_tracks cs)); [|discriminate].
  intros [= <-]. exists cs. repeat split; lia.
Qed.

(** The number in a name made of "track_", digits and ".flac". *)
Lemma name_number (tnum : Z) :
  0 <= tnum ->
  Libc.read_digits 0 (Libc.fmt_03u tnum ++ ".flac") = tnum.
Proof.
  intros Hpos.
  destruct (LibcFacts.fmt_03u_spec tnum Hpos) as (Hds & _ & Hval).
  rewrite LibcFacts.read_digits_decimal; [exact Hval | exact Hds | reflexivity].
Qed.

End NameFacts.

(** X9. [flac_cue_track] gives a name only for a file that has a cue
    sheet: when libFLAC finds none the result is the null pointer at
    every index, and a name that is returned is "track_", the index in
    decimal and ".flac", for an index from 1 up to the track count less
    one of a cue sheet of two tracks at least. *)
Theorem flac_cue_track_some_iff `{Collaborators} (pathname : string)
    (tnum : Z) (name : string) :
  (flac_cue_track pathname tnum = Some name <->
   exists cs,
     FLAC__metadata_get_cuesheet pathname = Some cs /\
     num_tracks cs > 1 /\ 0 < tnum < num_tracks cs /\
     name = "track_" ++ Libc.fmt_03u tnum ++ ".flac") /\
  (FLAC__metadata_get_cuesheet pathname = None ->
   flac_cue_track pathname tnum = None).
Proof.
  split; [split|].
  - apply NameFacts.cue_track_inv.
  - intros (cs & Hcs & HT & Htnum & ->).
    apply TrackFacts.cue_track_accepts with cs; [assumption | lia | lia].
  - intros Hnone. unfold flac_cue_track. now rewrite Hnone.
Qed.

Lemma flac_cue_track_some_iff_witness :
  @FLAC__metadata_get_cuesheet Fixture.scripted "single.flac" = None /\
  @flac_cue_track Fixture.scripted "single.flac" 1 = None.
Proof.
  split; [reflexivity|].
  destruct (@flac_cue_track_some_iff Fixture.scripted "single.flac" 1
              EmptyString) as [_ Hnone].
  apply Hnone. reflexivity.
Defined.

(** X10. Names do not collide: two indices that [flac_cue_track] turns
    into the same name, be it for different files, are the same index. *)
Theorem flac_cue_track_injective `{Collaborators} (path1 path2 : string)
    (tnum1 tnum2 : Z) (name : string) :
  flac_cue_track path1 tnum1 = Some name ->
  flac_cue_track path2 tnum2 = Some name ->
  tnum1 = tnum2.
Proof.
  intros H1 H2.
  apply NameFacts.cue_track_inv in H1 as (cs1 & _ & _ & Hr1 & Hn1).
  apply NameFacts.cue_track_inv in H2 as (cs2 & _ & _ & Hr2 & Hn2).
  rewrite Hn1 in Hn2. simpl in Hn2. injection Hn2 as Heq.
  apply (f_equal (Libc.read_digits 0)) in Heq.
  rewrite !NameFacts.name_number in Heq by lia. exact Heq.
Qed.

Lemma flac_cue_track_injective_witness :
  @flac_cue_track Fixture.scripted "album.flac" 2 = Some "track_002.flac" /\
  2 = 2.
Proof.
  assert (H2 : @flac_cue_track Fixture.scripted "album.flac" 2 =
               Some "track_002.flac") by reflexivity.
  split; [exact H2|].
  exact (@flac_cue_track_injective Fixture.scripted "album.flac" "album.flac"
           2 2 "track_002.flac" H2 H2).
Defined.

(** X11. [flac_vtrack_tnum] finds the index in every name that ends in
    an underscore, the index as [%03u] prints it, and an extension
    without underscore that does not begin with a digit: what stands
    before that underscore, directories and underscores included, and
    which extension it is do not matter. The index is an [unsigned]. *)
Theorem flac_vtrack_tnum_any_prefix (pre ext : string) (tnum : Z) :
  0 <= tnum < CInt.UINT_MOD ->
  no_leading_digit ext -> absent "_" ext ->
  flac_vtrack_tnum (pre ++ "_" ++ Libc.fmt_03u tnum ++ ext) = tnum.
Proof.
  intros Hrange Hext Habs.
  destruct (LibcFacts.fmt_03u_spec tnum) as (Hds & Hne & Hval); [lia|].
  rewrite TrackFacts.vtrack_tnum_small; try assumption; lia.
Qed.

Lemma flac_vtrack_tnum_any_prefix_witness :
  0 <= 12 < CInt.UINT_MOD /\ no_leading_digit ".ogg" /\ absent "_" ".ogg" /\
  flac_vtrack_tnum ("my_music/cd_1" ++ "_" ++ Libc.fmt_03u 12 ++ ".ogg") = 12.
Proof.
  assert (Hrange : 0 <= 12 < CInt.UINT_MOD) by (unfold CInt.UINT_MOD; lia).
  assert (Hext : no_leading_digit ".ogg") by reflexivity.
  assert (Habs : absent "_" ".ogg") by (simpl; repeat split; discriminate).
  split; [exact Hrange|]. split; [exact Hext|]. split; [exact Habs|].
  exact (flac_vtrack_tnum_any_prefix "my_music/cd_1" ".ogg" 12 Hrange Hext Habs).
Defined.

(** X12. The round trip from the name: a name [flac_cue_track] made for
    a file is made again from the index [flac_vtrack_tnum] reads in it.
    The track count of the cue sheet is an [unsigned]. *)
Theorem flac_cue_track_of_vtrack_tnum `{Collaborators} (pathname : string)
    (cs : FLAC__StreamMetadata_CueSheet) (tnum : Z) (name : string) :
  FLAC__metadata_get_cuesheet pathname = Some cs ->
  num_tracks cs < CInt.UINT_MOD ->
  flac_cue_track pathname tnum = Some name ->
  flac_cue_track pathname (flac_vtrack_tnum name) = Some name.
Proof.
  intros Hcs Hmax Hname.
  destruct (NameFacts.cue_track_inv pathname tnum name Hname)
    as (cs' & Hcs' & HT & Htnum & Hshape).
  assert (cs' = cs) by congruence. subst cs'.
  assert (Hback : flac_vtrack_tnum name = tnum).
  { rewrite Hshape.
    destruct (LibcFacts.fmt_03u_spec tnum) as (Hds & Hne & Hval); [lia|].
    destruct TrackFacts.flac_suffix_shape as [Hext Habs].
    change ("track_" ++ Libc.fmt_03u tnum ++ ".flac")
      with ("track" ++ "_" ++ Libc.fmt_03u tnum ++ ".flac").
    rewrite TrackFacts.vtrack_tnum_small; try assumption; lia. }
  now rewrite Hback.
Qed.

Lemma flac_cue_track_of_vtrack_tnum_witness :
  @FLAC__metadata_get_cuesheet Fixture.scripted "album.flac" =
    Some Fixture.album_cue_sheet /\
  num_tracks Fixture.album_cue_sheet < CInt.UINT_MOD /\
  @flac_cue_track Fixture.scripted "album.flac" 1 = Some "track_001.flac" /\
  @flac_cue_track Fixture.scripted "album.flac"
    (flac_vtrack_tnum "track_001.flac") = Some "track_001.flac".
Proof.
  assert (H1 : @FLAC__metadata_get_cuesheet Fixture.scripted "album.flac" =
               Some Fixture.album_cue_sheet) by reflexivity.
  assert (H2 : num_tracks Fixture.album_cue_sheet < CInt.UINT_MOD) by reflexivity.
  assert (H3 : @flac_cue_track Fixture.scripted "album.flac" 1 =
               Some "track_001.flac") by reflexivity.
  split; [exact H1|]. split; [exact H2|]. split; [exact H3|].
  exact (@flac_cue_track_of_vtrack_tnum Fixture.scripted "album.flac"
           Fixture.album_cue_sheet 1 "track_001.flac" H1 H2 H3).
Defined.

(** ** Audio output initialisation *)

Module OutputInitFacts.
Import OutputInit.

Section Facts.

Context `{Environment}.

Variable plugin_init :
  audio_output_plugin -> audio_output -> option audio_format ->
  option ConfigParam -> option plugin_data.

(** A step of a computation whose head is known. *)
Ltac run_io := cbv beta iota delta [bind ret g_error g_warning].

(** A configured output, case by case. *)
Lemma configured_cases (ao : audio_output) (param : ConfigParam) (l : log) :
  let run := audio_output_init plugin_init ao (Some param) l in
  match getBlockParam param "name" with
  | None => run = Aborted (l ++ [(LOG_ERROR, missing_parameter "name" param)])%list
  | Some name =>
      match getBlockParam param "type" with
      | None =>
          run = Aborted (l ++ [(LOG_ERROR, missing_parameter "type" param)])%list
      | Some type =>
          match audio_output_plugin_get (value type) with
          | None =>
              run = Aborted (l ++ [(LOG_ERROR,
                                    unknown_plugin (value type) param)])%list
          | Some plugin =>
              match getBlockParam param "format" with
              | None =>
                  let ao1 := prepared ao (value name) plugin audio_format_clear in
                  let data := plugin_init plugin ao1 None (Some param) in
                  run = Done (status_of data, set_data ao1 data) l
              | Some bp =>
                  match parseAudioConfig (value bp) with
                  | None =>
                      run = Aborted (l ++ [(LOG_ERROR, format_error bp)])%list
                  | Some af =>
                      let ao1 := prepared ao (value name) plugin af in
                      let data := plugin_init plugin ao1 (Some af) (Some param) in
                      run = Done (status_of data, set_data ao1 data) l
                  end
              end
          end
      end
  end.
Proof.
  cbv zeta.
  unfold audio_output_init, select, getBlockParam_forced,
    getBlockParam_optional, AUDIO_OUTPUT_NAME, AUDIO_OUTPUT_TYPE,
    AUDIO_OUTPUT_FORMAT, missing_parameter, unknown_plugin, format_error.
  destruct (getBlockParam param "name") as [name|]; run_io; [|reflexivity].
  destruct (getBlockParam param "type") as [type|]; run_io; [|reflexivity].
  destruct (audio_output_plugin_get (value type)) as [plugin|]; run_io;
    [|reflexivity].
  destruct (getBlockParam param "format") as [bp|]; run_io.
  - destruct (parseAudioConfig (value bp)) as [af|]; run_io; [|reflexivity].
    unfold prepared, set_data, status_of.
    destruct (plugin_init _ _ _ _); reflexivity.
  - unfold prepared, set_data, status_of.
    destruct (plugin_init _ _ _ _); reflexivity.
Qed.

(** The loop over the plugin table. *)
Lemma detect_spec (plugins : list audio_output_plugin) :
  forall l, exists added,
    detect plugins l = Done (find detected plugins) (l ++ added)%list /\
    Forall is_warning added /\
    (forall plugin,
       find detected plugins = Some plugin ->
       exists before,
         added = (before ++ [(LOG_WARNING, detected_message plugin)])%list).
Proof.
  induction plugins as [|p plugins IH]; intros l.
  - exists []. cbn [detect find]. unfold ret. rewrite app_nil_r.
    repeat split; [constructor | discriminate].
  - cbn [detect find].
    destruct (test_default_device p) as [[|]|] eqn:Hp.
    + assert (Hd : detected p = true) by (unfold detected; now rewrite Hp).
      rewrite Hd.
      exists [(LOG_WARNING, attempt_message p); (LOG_WARNING, detected_message p)].
      run_io. rewrite <- app_assoc.
      split; [reflexivity|]. split; [repeat constructor|].
      intros plugin [= <-]. exists [(LOG_WARNING, attempt_message p)]. reflexivity.
    + assert (Hd : detected p = false) by (unfold detected; now rewrite Hp).
      rewrite Hd.
      destruct (IH (l ++ [(LOG_WARNING, attempt_message p)])%list)
        as (added & Hrun & Hwarn & Hlast).
      exists ((LOG_WARNING, attempt_message p) :: added).
      run_io. fold (attempt_message p). rewrite Hrun, <- app_assoc.
      split; [reflexivity|]. split; [constructor; [reflexivity | exact Hwarn]|].
      intros plugin Hfound. destruct (Hlast plugin Hfound) as (before & ->).
      exists ((LOG_WARNING, attempt_message p) :: before). reflexivity.
    + assert (Hd : detected p = false) by (unfold detected; now rewrite Hp).
      rewrite Hd.
      destruct (IH l) as (added & Hrun & Hwarn & Hlast).
      exists added. auto.
Qed.

(** An output without configuration, by what the loop finds. *)
Lemma detected_cases (ao : audio_output) (l : log) :
  let run := audio_output_init plugin_init ao None l in
  exists added,
    Forall is_warning added /\
    match find detected audio_output_plugins with
    | None =>
        run = Done (0, ao) (l ++ added)%list /\
        exists before,
          added = (before ++ [(LOG_WARNING, unable_message)])%list
    | Some plugin =>
        let ao1 := prepared ao "default detected output" plugin
                            audio_format_clear in
        let data := plugin_init plugin ao1 None None in
        run = Done (status_of data, set_data ao1 data) (l ++ added)%list /\
        exists before,
          added = (before ++ [(LOG_WARNING, detected_message plugin)])%list
    end.
Proof.
  cbv zeta. unfold audio_output_init, select. run_io.
  match goal with
  | |- context [detect audio_output_plugins ?l0] =>
      destruct (detect_spec audio_output_plugins l0)
        as (added & Hrun & Hwarn & Hlast);
      rewrite Hrun
  end.
  destruct (find detected audio_output_plugins) as [plugin|]; run_io.
  - exists ((LOG_WARNING, undefined_message) ::
            (LOG_WARNING, attempt_all_message) :: added).
    rewrite <- !app_assoc. cbn [app].
    split; [constructor; [reflexivity|]; constructor; [reflexivity | exact Hwarn]|].
    split.
    + unfold prepared, set_data, status_of.
      destruct (plugin_init _ _ _ _); reflexivity.
    + destruct (Hlast plugin eq_refl) as (before & ->).
      exists ((LOG_WARNING, undefined_message) ::
              (LOG_WARNING, attempt_all_message) :: before). reflexivity.
  - exists ((LOG_WARNING, undefined_message) ::
            (LOG_WARNING, attempt_all_message) ::
            added ++ [(LOG_WARNING, unable_message)])%list.
    split.
    + constructor; [reflexivity|]. constructor; [reflexivity|].
      apply Forall_app. split; [exact Hwarn|].
      constructor; [reflexivity | constructor].
    + split.
      * rewrite <- !app_assoc. reflexivity.
      * exists ((LOG_WARNING, undefined_message) ::
                (LOG_WARNING, attempt_all_message) :: added). reflexivity.
Qed.

End Facts.

End OutputInitFacts.

(** X13. A configured output is initialised, with a value returned,
    exactly when the block has a name and a type, the type is that of a
    known plugin and the format, if the block has one, parses; otherwise
    the process is aborted with one error in the log. When the function
    returns, it has logged nothing itself. *)
Theorem audio_output_init_configured `{OutputInit.Environment}
    (plugin_init : OutputInit.audio_output_plugin -> OutputInit.audio_output ->
                   option audio_format -> option OutputInit.ConfigParam ->
                   option OutputInit.plugin_data)
    (ao : OutputInit.audio_output) (param : OutputInit.ConfigParam)
    (l : OutputInit.log) :
  let run := OutputInit.audio_output_init plugin_init ao (Some param) l in
  let accepted :=
    exists name type plugin,
      OutputInit.getBlockParam param "name" = Some name /\
      OutputInit.getBlockParam param "type" = Some type /\
      OutputInit.audio_output_plugin_get (OutputInit.value type) = Some plugin /\
      (forall bp, OutputInit.getBlockParam param "format" = Some bp ->
                  OutputInit.parseAudioConfig (OutputInit.value bp) <> None) in
  ((exists r ao', run = OutputInit.Done (r, ao') l) <-> accepted) /\
  (~ accepted ->
   exists message,
     run = OutputInit.Aborted (l ++ [(OutputInit.LOG_ERROR, message)])%list) /\
  (forall r ao' l', run = OutputInit.Done (r, ao') l' -> l' = l).
Proof.
  cbv zeta.
  pose proof (OutputInitFacts.configured_cases plugin_init ao param l) as Hcases.
  cbv zeta in Hcases.
  destruct (OutputInit.getBlockParam param "name") as [name|].
  2:{ rewrite Hcases. split; [split|split].
      - intros (r & ao' & Hrun). discriminate Hrun.
      - intros (n & t & p & Hn & _). discriminate Hn.
      - intros _. eexists. reflexivity.
      - intros r ao' l' Hrun. discriminate Hrun. }
  destruct (OutputInit.getBlockParam param "type") as [type|].
  2:{ rewrite Hcases. split; [split|split].
      - intros (r & ao' & Hrun). discriminate Hrun.
      - intros (n & t & p & _ & Ht & _). discriminate Ht.
      - intros _. eexists. reflexivity.
      - intros r ao' l' Hrun. discriminate Hrun. }
  destruct (OutputInit.audio_output_plugin_get (OutputInit.value type))
    as [plugin|] eqn:Hplugin.
  2:{ rewrite Hcases. split; [split|split].
      - intros (r & ao' & Hrun). discriminate Hrun.
      - intros (n & t & p & _ & Ht & Hp & _).
        injection Ht as <-. congruence.
      - intros _. eexists. reflexivity.
      - intros r ao' l' Hrun. discriminate Hrun. }
  destruct (OutputInit.getBlockParam param "format") as [bp|].
  - destruct (OutputInit.parseAudioConfig (OutputInit.value bp)) as [af|] eqn:Hparse.
    + rewrite Hcases. split; [split|split].
      * intros _. exists name, type, plugin. repeat split; try assumption.
        intros bp' [= <-]. congruence.
      * intros _. eexists. eexists. reflexivity.
      * intros Hno. exfalso. apply Hno. exists name, type, plugin.
        repeat split; try assumption. intros bp' [= <-]. congruence.
      * intros r ao' l' [= _ _ <-]. reflexivity.
    + rewrite Hcases. split; [split|split].
      * intros (r & ao' & Hrun). discriminate Hrun.
      * intros (n & t & p & _ & _ & _ & Hfmt).
        exfalso. apply (Hfmt bp eq_refl). exact Hparse.
      * intros _. eexists. reflexivity.
      * intros r ao' l' Hrun. discriminate Hrun.
  - rewrite Hcases. split; [split|split].
    + intros _. exists name, type, plugin. repeat split; try assumption.
      intros bp' Hbp. discriminate Hbp.
    + intros _. eexists. eexists. reflexivity.
    + intros Hno. exfalso. apply Hno. exists name, type, plugin.
      repeat split; try assumption. intros bp' Hbp. discriminate Hbp.
    + intros r ao' l' [= _ _ <-]. reflexivity.
Qed.

Lemma audio_output_init_configured_witness :
  exists r ao',
    @OutputInit.audio_output_init OutputInit.Sample.environment
      OutputInit.Sample.init_plugin OutputInit.Sample.blank
      (Some OutputInit.Sample.oss_block) [] = OutputInit.Done (r, ao') [].
Proof.
  destruct (@audio_output_init_configured OutputInit.Sample.environment
              OutputInit.Sample.init_plugin OutputInit.Sample.blank
              OutputInit.Sample.oss_block []) as ([_ Hreturns] & _).
  apply Hreturns.
  exists {| OutputInit.value := "speakers"; OutputInit.line := 11 |},
         {| OutputInit.value := "oss"; OutputInit.line := 12 |}, "oss".
  repeat split. intros bp [= <-]. discriminate.
Defined.

(** X14. Which error ends a configured initialisation: the checks are
    made in the order name, type, plugin, format, and the first that
    fails decides. A missing name or type and an unknown plugin type are
    reported with the line at which the block begins, a format that does
    not parse with the line of the format parameter. *)
Theorem audio_output_init_diagnostics `{OutputInit.Environment}
    (plugin_init : OutputInit.audio_output_plugin -> OutputInit.audio_output ->
                   option audio_format -> option OutputInit.ConfigParam ->
                   option OutputInit.plugin_data)
    (ao : OutputInit.audio_output) (param : OutputInit.ConfigParam)
    (l : OutputInit.log) :
  let run := OutputInit.audio_output_init plugin_init ao (Some param) l in
  let aborted message :=
    OutputInit.Aborted (A := Z * OutputInit.audio_output)
                       (l ++ [(OutputInit.LOG_ERROR, message)])%list in
  (OutputInit.getBlockParam param "name" = None ->
   run = aborted (OutputInit.missing_parameter "name" param)) /\
  (forall name,
     OutputInit.getBlockParam param "name" = Some name ->
     OutputInit.getBlockParam param "type" = None ->
     run = aborted (OutputInit.missing_parameter "type" param)) /\
  (forall name type,
     OutputInit.getBlockParam param "name" = Some name ->
     OutputInit.getBlockParam param "type" = Some type ->
     OutputInit.audio_output_plugin_get (OutputInit.value type) = None ->
     run = aborted (OutputInit.unknown_plugin (OutputInit.value type) param)) /\
  (forall name type plugin bp,
     OutputInit.getBlockParam param "name" = Some name ->
     OutputInit.getBlockParam param "type" = Some type ->
     OutputInit.audio_output_plugin_get (OutputInit.value type) = Some plugin ->
     OutputInit.getBlockParam param "format" = Some bp ->
     OutputInit.parseAudioConfig (OutputInit.value bp) = None ->
     run = aborted (OutputInit.format_error bp)).
Proof.
  cbv zeta.
  pose proof (OutputInitFacts.configured_cases plugin_init ao param l) as Hcases.
  cbv zeta in Hcases.
  split; [|split; [|split]].
  - intros Hname. now rewrite Hname in Hcases.
  - intros name Hname Htype. now rewrite Hname, Htype in Hcases.
  - intros name type Hname Htype Hplugin.
    now rewrite Hname, Htype, Hplugin in Hcases.
  - intros name type plugin bp Hname Htype Hplugin Hformat Hparse.
    now rewrite Hname, Htype, Hplugin, Hformat, Hparse in Hcases.
Qed.

Lemma audio_output_init_diagnostics_witness :
  @OutputInit.getBlockParam OutputInit.Sample.environment
    OutputInit.Sample.nameless_block "name" = None /\
  @OutputInit.audio_output_init OutputInit.Sample.environment
    OutputInit.Sample.init_plugin OutputInit.Sample.blank
    (Some OutputInit.Sample.nameless_block) [] =
  OutputInit.Aborted
    [(OutputInit.LOG_ERROR,
      "couldn't find parameter " ++ OutputInit.quoted "name" ++
      " in audio output definition beginning at 20" ++ nl)].
Proof.
  split; [reflexivity|].
  destruct (@audio_output_init_diagnostics OutputInit.Sample.environment
              OutputInit.Sample.init_plugin OutputInit.Sample.blank
              OutputInit.Sample.nameless_block []) as (Hname & _).
  refine (eq_trans (Hname eq_refl) _). reflexivity.
Defined.

Module OutputInitPost.
Import OutputInit.

(** The output and the value returned once a plugin has been chosen. *)
Lemma chosen_post `{Environment} (ao ao' : audio_output) (name : string)
    (plugin : audio_output_plugin) (req : audio_format)
    (data : option plugin_data) (r : Z) :
  (status_of data, set_data (prepared ao name plugin req) data) = (r, ao') ->
  (r = 0 \/ r = 1) /\
  (r = 1 <-> ao_data ao' <> None) /\
  ao_plugin ao' = plugin /\ ao_name ao' = name /\ ao_reqAudioFormat ao' = req /\
  ao_enabled ao' = true /\ ao_open ao' = false /\ ao_reopen_after ao' = 0 /\
  ao_convBuffer ao' = None /\ ao_convBufferLen ao' = 0 /\
  ao_convState ao' = pcm_convert_init /\ ao_thread ao' = 0 /\
  ao_notify ao' = notify_init /\ ao_command ao' = AO_COMMAND_NONE.
Proof.
  intros [= <- <-]. destruct data as [d|]; simpl.
  - repeat split; auto; discriminate.
  - repeat split; auto; try discriminate. intros Hne. now contradiction Hne.
Qed.

End OutputInitPost.

(** X15. Without configuration the plugin table is searched in order and
    the output gets the first plugin whose probe of the default device
    succeeds, under the name "default detected output" and with no
    requested format; plugins without probe are passed over. When no
    probe succeeds the function returns 0 and leaves the output as it
    was. In both cases the process is not aborted, only warnings are
    logged, and the last of them tells the outcome. *)
Theorem audio_output_init_detects_first `{OutputInit.Environment}
    (plugin_init : OutputInit.audio_output_plugin -> OutputInit.audio_output ->
                   option audio_format -> option OutputInit.ConfigParam ->
                   option OutputInit.plugin_data)
    (ao : OutputInit.audio_output) (l : OutputInit.log) :
  let run := OutputInit.audio_output_init plugin_init ao None l in
  exists added,
    Forall OutputInit.is_warning added /\
    match find OutputInit.detected OutputInit.audio_output_plugins with
    | None =>
        run = OutputInit.Done (0, ao) (l ++ added)%list /\
        exists before,
          added = (before ++ [(OutputInit.LOG_WARNING,
                               OutputInit.unable_message)])%list
    | Some plugin =>
        exists r ao',
          run = OutputInit.Done (r, ao') (l ++ added)%list /\
          OutputInit.ao_plugin ao' = plugin /\
          OutputInit.ao_name ao' = "default detected output" /\
          OutputInit.ao_reqAudioFormat ao' = OutputInit.audio_format_clear /\
          (r = 1 <-> OutputInit.ao_data ao' <> None) /\
          exists before,
            added = (before ++ [(OutputInit.LOG_WARNING,
                                 OutputInit.detected_message plugin)])%list
    end.
Proof.
  cbv zeta.
  destruct (OutputInitFacts.detected_cases plugin_init ao l)
    as (added & Hwarn & Hcase).
  exists added. split; [exact Hwarn|].
  destruct (find OutputInit.detected OutputInit.audio_output_plugins)
    as [plugin|]; [|exact Hcase].
  cbv zeta in Hcase. destruct Hcase as [Hrun Hlast].
  eexists. eexists. split; [exact Hrun|].
  destruct (OutputInitPost.chosen_post ao _ "default detected output" plugin
              OutputInit.audio_format_clear
              (plugin_init plugin
                 (OutputInit.prepared ao "default detected output" plugin
                    OutputInit.audio_format_clear) None None) _ eq_refl)
    as (_ & Hdata & Hplugin & Hname & Hreq & _).
  split; [exact Hplugin|]. split; [exact Hname|]. split; [exact Hreq|].
  split; [exact Hdata | exact Hlast].
Qed.

(** X16. What a caller finds when [audio_output_init] returns, with or
    without configuration: the value is 0 or 1; with 1 the plugin has
    given its data and the output is enabled, closed, without conversion
    buffer, with no command pending and thread 0; with 0 either the
    plugin gave no data or the output is as it was before the call.
    What the function has logged on the way are warnings. The plugin's
    [init] is taken to read the output, not to write it. *)
Theorem audio_output_init_returned `{OutputInit.Environment}
    (plugin_init : OutputInit.audio_output_plugin -> OutputInit.audio_output ->
                   option audio_format -> option OutputInit.ConfigParam ->
                   option OutputInit.plugin_data)
    (ao ao' : OutputInit.audio_output) (param : option OutputInit.ConfigParam)
    (l l' : OutputInit.log) (r : Z) :
  OutputInit.audio_output_init plugin_init ao param l =
    OutputInit.Done (r, ao') l' ->
  (r = 0 \/ r = 1) /\
  (r = 1 ->
   OutputInit.ao_data ao' <> None /\
   OutputInit.ao_enabled ao' = true /\ OutputInit.ao_open ao' = false /\
   OutputInit.ao_reopen_after ao' = 0 /\
   OutputInit.ao_convBuffer ao' = None /\ OutputInit.ao_convBufferLen ao' = 0 /\
   OutputInit.ao_thread ao' = 0 /\
   OutputInit.ao_command ao' = OutputInit.AO_COMMAND_NONE) /\
  (r = 0 -> OutputInit.ao_data ao' = None \/ ao' = ao) /\
  exists added, l' = (l ++ added)%list /\ Forall OutputInit.is_warning added.
Proof.
  intros Hrun.
  assert (Hchosen : forall name plugin req data added,
    OutputInit.Done (OutputInit.status_of data,
                     OutputInit.set_data (OutputInit.prepared ao name plugin req) data)
                    (l ++ added)%list = OutputInit.Done (r, ao') l' ->
    Forall OutputInit.is_warning added ->
    (r = 0 \/ r = 1) /\
    (r = 1 ->
     OutputInit.ao_data ao' <> None /\
     OutputInit.ao_enabled ao' = true /\ OutputInit.ao_open ao' = false /\
     OutputInit.ao_reopen_after ao' = 0 /\
     OutputInit.ao_convBuffer ao' = None /\ OutputInit.ao_convBufferLen ao' = 0 /\
     OutputInit.ao_thread ao' = 0 /\
     OutputInit.ao_command ao' = OutputInit.AO_COMMAND_NONE) /\
    (r = 0 -> OutputInit.ao_data ao' = None \/ ao' = ao) /\
    exists added, l' = (l ++ added)%list /\ Forall OutputInit.is_warning added).
  { intros name plugin req data added Heq Hwarn.
    injection Heq as Hr Hao Hl.
    destruct (OutputInitPost.chosen_post ao ao' name plugin req data r)
      as (H01 & Hdata & _ & _ & _ & Hen & Hop & Hre & Hcb & Hcl & _ & Hth & _ & Hcmd).
    { now rewrite Hr, Hao. }
    split; [exact H01|]. split; [|split].
    - intros H1. repeat split; try assumption. now apply Hdata.
    - intros H0. left.
      destruct (OutputInit.ao_data ao') eqn:Hd; [|reflexivity].
      assert (r = 1) by (apply Hdata; discriminate). lia.
    - exists added. split; [now symmetry | exact Hwarn]. }
  destruct param as [param|].
  - pose proof (OutputInitFacts.configured_cases plugin_init ao param l) as Hcases.
    cbv zeta in Hcases. rewrite Hrun in Hcases.
    destruct (OutputInit.getBlockParam param "name"); [|discriminate Hcases].
    destruct (OutputInit.getBlockParam param "type"); [|discriminate Hcases].
    destruct (OutputInit.audio_output_plugin_get _); [|discriminate Hcases].
    destruct (OutputInit.getBlockParam param "format").
    + destruct (OutputInit.parseAudioConfig _); [|discriminate Hcases].
      eapply Hchosen with (added := []); [|constructor].
      rewrite app_nil_r. symmetry. exact Hcases.
    + eapply Hchosen with (added := []); [|constructor].
      rewrite app_nil_r. symmetry. exact Hcases.
  - destruct (OutputInitFacts.detected_cases plugin_init ao l)
      as (added & Hwarn & Hcase).
    cbv zeta in Hcase. rewrite Hrun in Hcase.
    destruct (find OutputInit.detected OutputInit.audio_output_plugins).
    + destruct Hcase as [Heq _].
      eapply Hchosen with (added := added); [|exact Hwarn].
      symmetry. exact Heq.
    + destruct Hcase as [Heq _]. injection Heq as -> -> ->.
      split; [now left|]. split; [discriminate|]. split; [now right|].
      exists added. split; [reflexivity | exact Hwarn].
Qed.

Lemma audio_output_init_returned_witness :
  exists ao',
    @OutputInit.audio_output_init OutputInit.Sample.environment
      OutputInit.Sample.init_plugin OutputInit.Sample.blank None [] =
      OutputInit.Done (1, ao')
        [(OutputInit.LOG_WARNING,
          @OutputInit.undefined_message OutputInit.Sample.environment);
         (OutputInit.LOG_WARNING, OutputInit.attempt_all_message);
         (OutputInit.LOG_WARNING,
          @OutputInit.attempt_message OutputInit.Sample.environment "alsa");
         (OutputInit.LOG_WARNING,
          @OutputInit.attempt_message OutputInit.Sample.environment "oss");
         (OutputInit.LOG_WARNING,
          @OutputInit.detected_message OutputInit.Sample.environment "oss")] /\
    OutputInit.ao_enabled ao' = true /\ OutputInit.ao_open ao' = false.
Proof.
  eexists. split; [reflexivity|].
  destruct (@audio_output_init_returned OutputInit.Sample.environment
              OutputInit.Sample.init_plugin OutputInit.Sample.blank _ None
              [] _ 1 eq_refl) as (_ & Hone & _).
  destruct (Hone eq_refl) as (_ & Hen & Hop & _). split; assumption.
Defined.

(** ** Sequences of decode errors, and a whole session *)

Module ErrorFacts.

Lemma one_error `{Collaborators} (plugin : string)
    (status : FLAC__StreamDecoderErrorStatus) (w : world) :
  let w' := flac_error_common_cb plugin status w in
  w_data w' = w_data w /\ w_decoder w' = w_decoder w /\
  (decoder_get_command (w_decoder w) = DECODE_COMMAND_STOP -> w' = w) /\
  (decoder_get_command (w_decoder w) <> DECODE_COMMAND_STOP ->
   exists message, w_trace w' = (w_trace w ++ [Warning message])%list).
Proof.
  cbv zeta. unfold flac_error_common_cb.
  destruct (decoder_get_command (w_decoder w)) eqn:Hcmd; destruct status;
    repeat split; try congruence; intros _; eexists; reflexivity.
Qed.

End ErrorFacts.

(** X17. The error callback does not change the decoder, so the pending
    command is the same for all the errors it is called with in a row:
    with Stop pending none of them is reported and the world stays as it
    is; otherwise every one is reported, the log growing by as many
    warnings as there were errors, and the session and the decoder stay
    as they are. *)
Theorem report_errors_all_or_none `{Collaborators} (plugin : string)
    (errors : list FLAC__StreamDecoderErrorStatus) (w : world) :
  let w' := report_errors plugin w errors in
  w_data w' = w_data w /\ w_decoder w' = w_decoder w /\
  (decoder_get_command (w_decoder w) = DECODE_COMMAND_STOP -> w' = w) /\
  (decoder_get_command (w_decoder w) <> DECODE_COMMAND_STOP ->
   exists warnings,
     w_trace w' = (w_trace w ++ warnings)%list /\
     List.length warnings = List.length errors /\
     Forall is_warning_event warnings).
Proof.
  cbv zeta. unfold report_errors.
  revert w. induction errors as [|status errors IH]; intros w.
  - simpl. repeat split. intros _. exists []. rewrite app_nil_r.
    repeat split. constructor.
  - simpl fold_left.
    destruct (ErrorFacts.one_error plugin status w) as (Hd1 & Hc1 & Hstop1 & Hlog1).
    destruct (IH (flac_error_common_cb plugin status w))
      as (Hd & Hc & Hstop & Hlog).
    rewrite Hc1 in Hstop, Hlog.
    split; [congruence|]. split; [congruence|]. split.
    + intros Hcmd. rewrite (Hstop Hcmd). exact (Hstop1 Hcmd).
    + intros Hcmd.
      destruct (Hlog1 Hcmd) as (message & Ht1).
      destruct (Hlog Hcmd) as (warnings & Ht & Hlen & Hall).
      exists (Warning message :: warnings).
      rewrite Ht, Ht1, <- app_assoc. simpl.
      repeat split; [now rewrite Hlen | constructor; [exact I | exact Hall]].
Qed.

Lemma report_errors_all_or_none_witness :
  let errors := [FLAC__STREAM_DECODER_ERROR_STATUS_LOST_SYNC;
                 FLAC__STREAM_DECODER_ERROR_STATUS_BAD_HEADER;
                 FLAC__STREAM_DECODER_ERROR_STATUS_LOST_SYNC] in
  @decoder_get_command Fixture.scripted
    (w_decoder (Fixture.start [DECODE_COMMAND_STOP])) = DECODE_COMMAND_STOP /\
  report_errors "flac" (Fixture.start [DECODE_COMMAND_STOP]) errors =
    Fixture.start [DECODE_COMMAND_STOP] /\
  List.length (w_trace (report_errors "flac" (Fixture.start []) errors)) = 3%nat.
Proof.
  cbv zeta. split; [reflexivity|]. split.
  - destruct (@report_errors_all_or_none Fixture.scripted "flac"
                [FLAC__STREAM_DECODER_ERROR_STATUS_LOST_SYNC;
                 FLAC__STREAM_DECODER_ERROR_STATUS_BAD_HEADER;
                 FLAC__STREAM_DECODER_ERROR_STATUS_LOST_SYNC]
                (Fixture.start [DECODE_COMMAND_STOP])) as (_ & _ & Hstop & _).
    apply Hstop. reflexivity.
  - destruct (@report_errors_all_or_none Fixture.scripted "flac"
                [FLAC__STREAM_DECODER_ERROR_STATUS_LOST_SYNC;
                 FLAC__STREAM_DECODER_ERROR_STATUS_BAD_HEADER;
                 FLAC__STREAM_DECODER_ERROR_STATUS_LOST_SYNC]
                (Fixture.start [])) as (_ & _ & _ & Hlog).
    destruct Hlog as (warnings & Htrace & Hlen & _); [discriminate|].
    rewrite Htrace. simpl. exact Hlen.
Defined.

(** X18. A whole session: after [flac_data_init], any metadata blocks, a
    negotiation, successful or not, and the deliveries [ds], the frame
    counter is the sum of the block sizes of [ds] modulo 2^64, counted
    from zero, whatever the memory held at first and whatever the
    decoder answered; the first frame and the stream position are still
    zero. The deliveries are those whose bit rate can be computed. *)
Theorem session_frame_counter `{Collaborators} (d : flac_data)
    (dc : decoder) (trace : list event)
    (blocks : list FLAC__StreamMetadata) (af : audio_format)
    (ds : list delivery) :
  let w0 := {| w_data := flac_data_init d; w_decoder := dc; w_trace := trace |} in
  let w1 := process_blocks w0 blocks in
  let w2 := snd (fst (flac_data_get_audio_format w1 af)) in
  Forall (fun d => computable (dl_nbytes d) (header (dl_frame d))) ds ->
  exists sts w3,
    deliver_all w2 ds = Some (sts, w3) /\
    next_frame (w_data w3) = total_blocksize ds mod 2 ^ 64 /\
    first_frame (w_data w3) = 0 /\
    position (w_data w3) = 0.
Proof.
  cbv zeta. intros Hds.
  set (w0 := {| w_data := flac_data_init d; w_decoder := dc; w_trace := trace |}).
  set (w1 := process_blocks w0 blocks).
  set (w2 := snd (fst (flac_data_get_audio_format w1 af))).
  destruct (BlocksFacts.blocks_invariant blocks w0) as [Hplay _].
  fold w1 in Hplay. unfold playback_state in Hplay.
  injection Hplay as _ _ _ Hff1 Hnf1 Hpos1. simpl in Hff1, Hnf1, Hpos1.
  destruct (BlocksFacts.negotiation_counters w1 af) as (Hff2 & Hnf2 & Hpos2).
  fold w2 in Hff2, Hnf2, Hpos2.
  destruct (WriteFacts.deliver_all_next_frame ds w2 Hds)
    as (sts & w3 & Hrun & _ & Hsum).
  destruct (DeliveryFacts.deliver_all_counters ds w2 sts w3 Hrun) as [Hff3 Hpos3].
  assert (Hrange : 0 <= next_frame (w_data w2) < CInt.UINT64_MOD)
    by (rewrite Hnf2, Hnf1; unfold CInt.UINT64_MOD; lia).
  pose proof (WriteFacts.deliver_all_in_range ds w2 sts w3 Hrange Hrun) as Hrange3.
  exists sts, w3. split; [exact Hrun|]. split; [|split].
  - unfold CInt.uint64_add in Hsum. rewrite Z.add_0_r in Hsum.
    rewrite CIntFacts.to_uint64_small in Hsum by assumption.
    rewrite Hsum, Hnf2, Hnf1. reflexivity.
  - congruence.
  - congruence.
Qed.

Lemma session_frame_counter_witness :
  let ds := [Fixture.delivery_of 4096 0; Fixture.delivery_of 1152 2500] in
  let w0 := {| w_data := flac_data_init Fixture.fresh_data;
               w_decoder := [DECODE_COMMAND_SEEK]; w_trace := [] |} in
  let w1 := process_blocks w0
              [@FLAC__METADATA_TYPE_STREAMINFO Fixture.scripted
                 Fixture.cd_stream_info] in
  let w2 := snd (fst (flac_data_get_audio_format w1 Fixture.no_audio_format)) in
  Forall (fun d => computable (dl_nbytes d) (header (dl_frame d))) ds /\
  exists sts w3,
    deliver_all w2 ds = Some (sts, w3) /\ next_frame (w_data w3) = 5248.
Proof.
  cbv zeta.
  assert (Hds : Forall (fun d => computable (dl_nbytes d) (header (dl_frame d)))
                  [Fixture.delivery_of 4096 0; Fixture.delivery_of 1152 2500])
    by (repeat constructor; WriteFacts.computable_by_evaluation).
  split; [exact Hds|].
  destruct (@session_frame_counter Fixture.scripted Fixture.fresh_data
              [DECODE_COMMAND_SEEK] []
              [@FLAC__METADATA_TYPE_STREAMINFO Fixture.scripted
                 Fixture.cd_stream_info]
              Fixture.no_audio_format _ Hds)
    as (sts & w3 & Hrun & Hnext & _).
  exists sts, w3. split; [exact Hrun|]. rewrite Hnext. reflexivity.
Defined.
